(** * CrossSigningManager: scoped secret-storage key cache and bootstrap

    A shallow embedding of [src/CrossSigningManager.js].  The module owns two
    variables, [secretStorageKeys] and [cachingAllowed], and two asynchronous
    functions, [getSecretStorageKey] and [accessSecretStorage].  Everything
    else (dialogs, the storage subsystem, key derivation) is a collaborator
    the module calls and is taken as a parameter. *)

From Stdlib Require Import Strings.Byte.
From stdpp Require Import base option list strings gmap.

Open Scope string_scope.

(** ** Values exchanged with the collaborators *)

(** What a JavaScript [throw] carries here: an [Error] built from a message,
    or the engine's own [TypeError]. *)
Inductive JsError : Type :=
| Error (message : string)
| TypeError.

(** How an awaited promise ends.  [Pending] is a promise that never settles
    (a dialog the user never closes). *)
Inductive Outcome (A : Type) : Type :=
| Returned (a : A)
| Thrown (e : JsError)
| Pending.
Arguments Returned {A} a.
Arguments Thrown {A} e.
Arguments Pending {A}.

Definition settled {A} (o : Outcome A) : bool :=
  match o with Pending => false | _ => true end.

(** Key material is a byte array (a [Uint8Array]), which is always truthy. *)
Definition Key : Type := list byte.

(** What reading [secretStorageKeys[name]] gives when it gives something:
    the key stored under the name or, [secretStorageKeys] being a plain
    [{}], the property of that name inherited from [Object.prototype] (a
    function, or the prototype itself for [__proto__]).  Both are truthy. *)
Inductive Value : Type :=
| KeyValue (key : Key)
| Inherited (name : string).

(** The properties of [Object.prototype], with those of Annex B. *)
Definition objectPrototype : list string :=
  ["constructor"; "hasOwnProperty"; "isPrototypeOf"; "propertyIsEnumerable";
   "toLocaleString"; "toString"; "valueOf"; "__proto__";
   "__defineGetter__"; "__defineSetter__";
   "__lookupGetter__"; "__lookupSetter__"].

Definition inheritedName (name : string) : bool :=
  existsb (String.eqb name) objectPrototype.

(** [info.passphrase] of a key description. *)
Record PassphraseInfo : Type := {
  salt : string;
  iterations : N;
}.

(** One value of the [keys] object of a request: [info.passphrase] may be
    missing, [info.pubkey] is the public commitment. *)
Record KeyInfo : Type := {
  passphrase : option PassphraseInfo;
  pubkey : string;
}.

(** The argument of [getSecretStorageKey].  [keys] is kept as the list
    [Object.entries] returns, in property order. *)
Record KeyRequest : Type := {
  keys : list (string * KeyInfo);
}.

(** What the access dialog hands back when it is confirmed: an object whose
    [passphrase] and [recoveryKey] properties may each be missing. *)
Record Input : Type := {
  input_passphrase : option string;
  input_recoveryKey : option string;
}.

(** Truthiness of a possibly missing string property: [undefined] and the
    empty string are falsy. *)
Definition truthy (v : option string) : option string :=
  match v with
  | Some "" => None
  | Some s => Some s
  | None => None
  end.

(** The four messages the module throws; the names are the spec's. *)
Definition UnsupportedMultiKeyRequest : JsError :=
  Error "Multiple storage key requests not implemented".
Definition SecretStorageAccessCanceled : JsError :=
  Error "Secret storage access canceled".
Definition SecretStorageCreationCanceled : JsError :=
  Error "Secret storage creation canceled".
Definition CrossSigningUploadAuthCanceled : JsError :=
  Error "Cross-signing key upload auth canceled".

(** An entry of the call log.  The log records the dialogs the module
    opens (with what their [finished] promise settled to), its own call of
    [bootstrapSecretStorage], its call of [func], and a call of
    [bootstrapSecretStorage] that the creation dialog makes by itself.  It
    does not record [MatrixClientPeg.get], [sdk.getComponent],
    [hasSecretStorageKey], [deriveKey], [decodeRecoveryKey] or
    [checkSecretStoragePrivateKey]. *)
Inductive Call : Type :=
| AccessSecretStorageDialog (name : string) (input : Outcome (option Input))
| CreateSecretStorageDialog (confirmed : Outcome bool)
| InteractiveAuthDialog (confirmed : Outcome bool)
| BootstrapSecretStorage
| Func
| DialogBootstrapSecretStorage.

Definition isAccessDialog (c : Call) : bool :=
  match c with AccessSecretStorageDialog _ _ => true | _ => false end.
Definition isAccessDialogFor (name : string) (c : Call) : bool :=
  match c with
  | AccessSecretStorageDialog n _ => bool_decide (n = name)
  | _ => false
  end.
Definition isCreateDialog (c : Call) : bool :=
  match c with CreateSecretStorageDialog _ => true | _ => false end.
Definition isAuthDialog (c : Call) : bool :=
  match c with InteractiveAuthDialog _ => true | _ => false end.
Definition isBootstrap (c : Call) : bool :=
  match c with BootstrapSecretStorage => true | _ => false end.
Definition isFunc (c : Call) : bool :=
  match c with Func => true | _ => false end.
Definition isDialogBootstrap (c : Call) : bool :=
  match c with DialogBootstrapSecretStorage => true | _ => false end.

(** ** Collaborators that call back

    A collaborator is handed callbacks and decides by itself when to call
    them and what to do with what they give.  [Ext W E R] is such a
    collaborator: it settles, or reads and changes the world [W] (the user,
    the homeserver, the rest of the client), or calls one of the callbacks
    [E] and goes on from the outcome (it may catch a failure or let it
    through). *)

Inductive Ext (W : Type) (E : Type → Type) (R : Type) : Type :=
| Settle (o : Outcome R)
| Env (upd : W → W) (k : W → Ext W E R)
| Vis {X : Type} (e : E X) (k : Outcome X → Ext W E R).
Arguments Settle {W E R} o.
Arguments Env {W E R} upd k.
Arguments Vis {W E R X} e k.

(** The access dialog is given [checkPrivateKey]. *)
Inductive DialogE : Type → Type :=
| CheckPrivateKey (input : Input) : DialogE bool.

(** Code that holds [crossSigningCallbacks] can ask for a key.  This is all
    an operation passed to [accessSecretStorage] does to the module here: an
    operation that calls [accessSecretStorage] again from inside is not
    covered. *)
Inductive ClientE : Type → Type :=
| GetSecretStorageKey (req : KeyRequest) : ClientE (string * Value).

(** [bootstrapSecretStorage] can ask for a key and is given
    [authUploadDeviceSigningKeys], which takes [makeRequest]. *)
Inductive BootstrapE (MakeRequest : Type) : Type → Type :=
| BootstrapGetSecretStorageKey (req : KeyRequest)
    : BootstrapE MakeRequest (string * Value)
| AuthUploadDeviceSigningKeys (makeRequest : MakeRequest)
    : BootstrapE MakeRequest unit.
Arguments BootstrapGetSecretStorageKey {MakeRequest} req.
Arguments AuthUploadDeviceSigningKeys {MakeRequest} makeRequest.

(** The creation dialog can ask for a key and, as the source says of it
    ("This dialog calls bootstrap itself"), call [bootstrapSecretStorage]
    by itself, with an [authUploadDeviceSigningKeys] of its own. *)
Inductive CreateE (W MakeRequest : Type) : Type → Type :=
| CreateGetSecretStorageKey (req : KeyRequest)
    : CreateE W MakeRequest (string * Value)
| CreateBootstrapSecretStorage
    (authUpload : MakeRequest → Ext W ClientE unit)
    : CreateE W MakeRequest unit.
Arguments CreateGetSecretStorageKey {W MakeRequest} req.
Arguments CreateBootstrapSecretStorage {W MakeRequest} authUpload.

(** ** The collaborators the module imports *)

Class Collaborators : Type := {
  World : Type;
  MakeRequest : Type;
  (** [deriveKey] of matrix-js-sdk's key_passphrase. *)
  deriveKey : string → string → N → Outcome Key;
  (** [decodeRecoveryKey] of matrix-js-sdk's recoverykey; its argument is
      [undefined] when the input has no [recoveryKey]. *)
  decodeRecoveryKey : option string → Outcome Key;
  (** The client's [checkSecretStoragePrivateKey(key, pubkey)]. *)
  checkSecretStoragePrivateKey : Key → string → Outcome bool;
  (** The client's [hasSecretStorageKey()]. *)
  hasSecretStorageKey : World → Outcome bool;
  (** The client's [bootstrapSecretStorage({authUploadDeviceSigningKeys})]. *)
  bootstrapSecretStorage : Ext World (BootstrapE MakeRequest) unit;
  (** The three dialogs, each up to the first element of what its [finished]
      promise gives, read as the source reads it: an input object or
      nothing, and confirmed or not. *)
  accessSecretStorageDialog : KeyInfo → Ext World DialogE (option Input);
  createSecretStorageDialog : Ext World (CreateE World MakeRequest) bool;
  interactiveAuthDialog : MakeRequest → Ext World ClientE bool;
}.

Section CrossSigningManager.

Context `{Collaborators}.

(** ** Module state *)

Record State : Type := {
  secretStorageKeys : gmap string Key;
  cachingAllowed : bool;
  world : World;
}.

Definition setCachingAllowed (b : bool) (s : State) : State :=
  {| secretStorageKeys := secretStorageKeys s;
     cachingAllowed := b;
     world := world s |}.

Definition setSecretStorageKeys (m : gmap string Key) (s : State) : State :=
  {| secretStorageKeys := m;
     cachingAllowed := cachingAllowed s;
     world := world s |}.

Definition setWorld (w : World) (s : State) : State :=
  {| secretStorageKeys := secretStorageKeys s;
     cachingAllowed := cachingAllowed s;
     world := w |}.

(** ** The monad of the module's asynchronous functions

    A computation runs from a state to an outcome, the state it leaves and
    the collaborators it called on the way. *)

Record Result (A : Type) : Type := {
  outcome : Outcome A;
  final : State;
  calls : list Call;
}.
Arguments outcome {A} r.
Arguments final {A} r.
Arguments calls {A} r.

Definition M (A : Type) : Type := State → Result A.

Definition ret {A} (a : A) : M A :=
  λ s, {| outcome := Returned a; final := s; calls := [] |}.

Definition throw {A} (e : JsError) : M A :=
  λ s, {| outcome := Thrown e; final := s; calls := [] |}.

(** Awaiting a promise that is already known. *)
Definition await {A} (o : Outcome A) : M A :=
  λ s, {| outcome := o; final := s; calls := [] |}.

Definition bind {A B} (m : M A) (f : A → M B) : M B :=
  λ s,
    let r := m s in
    match outcome r with
    | Returned a =>
        let r' := f a (final r) in
        {| outcome := outcome r'; final := final r';
           calls := calls r ++ calls r' |}
    | Thrown e => {| outcome := Thrown e; final := final r; calls := calls r |}
    | Pending => {| outcome := Pending; final := final r; calls := calls r |}
    end.

Definition get : M State :=
  λ s, {| outcome := Returned s; final := s; calls := [] |}.

Definition modify (f : State → State) : M unit :=
  λ s, {| outcome := Returned tt; final := f s; calls := [] |}.

Definition logCall (c : Call) : M unit :=
  λ s, {| outcome := Returned tt; final := s; calls := [c] |}.

(** Runs [m] and hands its outcome over as a value, whatever it is. *)
Definition observe {A} (m : M A) : M (Outcome A) :=
  λ s,
    let r := m s in
    {| outcome := Returned (outcome r); final := final r; calls := calls r |}.

(** [try { body } finally { fin }] in an async function: when the body
    settles, [fin] runs and the body's outcome stands; while the body is
    pending nothing after it runs. *)
Definition tryFinally {A} (body : M A) (fin : M unit) : M A :=
  λ s,
    let r := body s in
    match outcome r with
    | Pending => r
    | o =>
        let r' := fin (final r) in
        {| outcome := match outcome r' with
                      | Returned _ => o
                      | Thrown e => Thrown e
                      | Pending => Pending
                      end;
           final := final r'; calls := calls r ++ calls r' |}
    end.

#[local] Notation "'let*' x := m 'in' k" := (bind m (λ x, k))
  (at level 10, x name, m at level 100, k at level 200, only parsing).

(** Running a collaborator against the callbacks [h] it was given. *)
Fixpoint run {E R} (h : ∀ X, E X → M X) (t : Ext World E R) : M R :=
  match t with
  | Settle o => await o
  | Env upd k => λ s, run h (k (world s)) (setWorld (upd (world s)) s)
  | Vis e k => let* o := observe (h _ e) in run h (k o)
  end.

(** ** getSecretStorageKey *)

Definition andThen {A B} (o : Outcome A) (f : A → Outcome B) : Outcome B :=
  match o with
  | Returned a => f a
  | Thrown e => Thrown e
  | Pending => Pending
  end.

(** [const [name, info] = keyInfoEntries[0]]: destructuring [undefined] is a
    type error. *)
Definition destructureEntry (entry : option (string * KeyInfo))
  : M (string * KeyInfo) :=
  match entry with
  | Some e => ret e
  | None => throw TypeError
  end.

(** The closure [inputToKey] over [info].  Reading [info.passphrase.salt]
    when [info.passphrase] is missing is a type error. *)
Definition inputToKey (info : KeyInfo) (input : Input) : Outcome Key :=
  match truthy (input_passphrase input) with
  | Some p =>
      match passphrase info with
      | Some pp => deriveKey p (salt pp) (iterations pp)
      | None => Thrown TypeError
      end
  | None => decodeRecoveryKey (input_recoveryKey input)
  end.

(** The [checkPrivateKey] property handed to the dialog. *)
Definition checkPrivateKey (info : KeyInfo) (input : Input) : Outcome bool :=
  andThen (inputToKey info input)
    (λ key, checkSecretStoragePrivateKey key (pubkey info)).

Definition dialogProps (info : KeyInfo) : ∀ X, DialogE X → M X :=
  λ X e,
    match e in DialogE X return M X with
    | CheckPrivateKey input => await (checkPrivateKey info input)
    end.

(** [Modal.createTrackedDialog("Access Secret Storage dialog", "",
    AccessSecretStorageDialog, {keyInfo: info, checkPrivateKey})] up to what
    [finished] gives. *)
Definition accessDialogFinished (info : KeyInfo) : M (option Input) :=
  run (dialogProps info) (accessSecretStorageDialog info).

(** [secretStorageKeys[name]] when it is truthy: an own property, or else
    one inherited from [Object.prototype]. *)
Definition getProperty (o : gmap string Key) (name : string) : option Value :=
  match o !! name with
  | Some key => Some (KeyValue key)
  | None => if inheritedName name then Some (Inherited name) else None
  end.

(** [cachingAllowed && secretStorageKeys[name]] *)
Definition cacheLookup (name : string) (s : State) : option Value :=
  if cachingAllowed s then getProperty (secretStorageKeys s) name else None.

(** The assignment [secretStorageKeys[name] = key] is reached only after the
    check above found nothing with the gate open, so [name] is then not a
    property of [Object.prototype] and the assignment creates or replaces
    an own property. *)
Definition getSecretStorageKey (req : KeyRequest) : M (string * Value) :=
  let keyInfoEntries := keys req in
  if bool_decide (1 < length keyInfoEntries) then
    throw (Error "Multiple storage key requests not implemented")
  else
    let* entry := destructureEntry (keyInfoEntries !! 0) in
    let name := entry.1 in
    let info := entry.2 in
    let* s := get in
    match cacheLookup name s with
    | Some value => ret (name, value)
    | None =>
        let* finished := observe (accessDialogFinished info) in
        let* _ := logCall (AccessSecretStorageDialog name finished) in
        let* input := await finished in
        match input with
        | None => throw (Error "Secret storage access canceled")
        | Some input =>
            let* key := await (inputToKey info input) in
            let* s' := get in
            let* _ :=
              if cachingAllowed s' then
                modify (setSecretStorageKeys
                          (<[name := key]> (secretStorageKeys s')))
              else ret tt in
            ret (name, KeyValue key)
        end
    end.

Definition crossSigningCallbacks : ∀ X, ClientE X → M X :=
  λ X e,
    match e in ClientE X return M X with
    | GetSecretStorageKey req => getSecretStorageKey req
    end.

(** ** accessSecretStorage *)

(** The interactive-auth dialog, up to what [finished] gives.  It is given
    the client, and with it the module's callbacks. *)
Definition authDialogFinished (makeRequest : MakeRequest) : M bool :=
  run crossSigningCallbacks (interactiveAuthDialog makeRequest).

(** What the creation dialog can reach.  Its own bootstrap runs the
    storage subsystem with the module's [getSecretStorageKey] and the
    dialog's upload callback. *)
Definition dialogBootstrapOptions
    (authUpload : MakeRequest → Ext World ClientE unit)
  : ∀ X, BootstrapE MakeRequest X → M X :=
  λ X e,
    match e in BootstrapE _ X return M X with
    | BootstrapGetSecretStorageKey req => getSecretStorageKey req
    | AuthUploadDeviceSigningKeys makeRequest =>
        run crossSigningCallbacks (authUpload makeRequest)
    end.

Definition createDialogProps : ∀ X, CreateE World MakeRequest X → M X :=
  λ X e,
    match e in CreateE _ _ X return M X with
    | CreateGetSecretStorageKey req => getSecretStorageKey req
    | CreateBootstrapSecretStorage authUpload =>
        let* _ := logCall DialogBootstrapSecretStorage in
        run (dialogBootstrapOptions authUpload) bootstrapSecretStorage
    end.

(** [Modal.createTrackedDialogAsync('Create Secret Storage dialog', ...)]
    up to what [finished] gives. *)
Definition createDialogFinished : M bool :=
  run createDialogProps createSecretStorageDialog.

(** The [authUploadDeviceSigningKeys] property handed to
    [bootstrapSecretStorage]. *)
Definition authUploadDeviceSigningKeys (makeRequest : MakeRequest) : M unit :=
  let* finished := observe (authDialogFinished makeRequest) in
  let* _ := logCall (InteractiveAuthDialog finished) in
  let* confirmed := await finished in
  if negb confirmed then
    throw (Error "Cross-signing key upload auth canceled")
  else ret tt.

Definition bootstrapOptions : ∀ X, BootstrapE MakeRequest X → M X :=
  λ X e,
    match e in BootstrapE _ X return M X with
    | BootstrapGetSecretStorageKey req => getSecretStorageKey req
    | AuthUploadDeviceSigningKeys makeRequest =>
        authUploadDeviceSigningKeys makeRequest
    end.

(** The [if]/[else] that opens the [try] block. *)
Definition ensureBootstrapped : M unit :=
  let* s := get in
  let* has := await (hasSecretStorageKey (world s)) in
  if negb has then
    let* finished := observe createDialogFinished in
    let* _ := logCall (CreateSecretStorageDialog finished) in
    let* confirmed := await finished in
    if negb confirmed then
      throw (Error "Secret storage creation canceled")
    else ret tt
  else
    let* _ := logCall BootstrapSecretStorage in
    run bootstrapOptions bootstrapSecretStorage.

(** The body of the [try] block: [return await func()] after it. *)
Definition bootstrapThenRun {R} (func : Ext World ClientE R) : M R :=
  let* _ := ensureBootstrapped in
  let* _ := logCall Func in
  run crossSigningCallbacks func.

(** The [finally] block. *)
Definition clearCache : M unit :=
  let* _ := modify (setCachingAllowed false) in
  modify (setSecretStorageKeys ∅).

Definition accessSecretStorage {R} (func : Ext World ClientE R) : M R :=
  let* _ := modify (setCachingAllowed true) in
  tryFinally (bootstrapThenRun func) clearCache.

(** The default argument [async () => { }]. *)
Definition noOperation : Ext World ClientE unit := Settle (Returned tt).

(** [name] is answered from the cache: the gate is open and reading the
    property gives [value]. *)
Definition cached (name : string) (value : Value) (s : State) : Prop :=
  cacheLookup name s = Some value.

(** ** Contracts of collaborators *)



(** A storage subsystem whose bootstrap has no cross-signing keys to upload:
    it never calls [authUploadDeviceSigningKeys]. *)
Fixpoint neverUploads {R}
    (t : Ext World (BootstrapE MakeRequest) R) : Prop :=
  match t with
  | Settle _ => True
  | Env _ k => ∀ w, neverUploads (k w)
  | Vis e k =>
      match e with
      | AuthUploadDeviceSigningKeys _ => False
      | BootstrapGetSecretStorageKey _ => True
      end
      ∧ ∀ o, neverUploads (k o)
  end.

(** ** The module seen from outside

    What the rest of the client can do to the module, one step at a time:
    the storage subsystem asks for a key, some caller runs an operation
    under [accessSecretStorage], or the world moves on by itself. *)
Inductive Use : Type :=
| UseGetSecretStorageKey (req : KeyRequest)
| UseAccessSecretStorage {R : Type} (func : Ext World ClientE R)
| UseNothing (upd : World → World).

Definition useModule (s : State) (u : Use) : State :=
  match u with
  | UseGetSecretStorageKey req => final (getSecretStorageKey req s)
  | UseAccessSecretStorage func => final (accessSecretStorage func s)
  | UseNothing upd => setWorld (upd (world s)) s
  end.

(** The module as it is loaded: [secretStorageKeys = {}] and
    [cachingAllowed = false]. *)
Definition moduleLoaded (w : World) : State :=
  {| secretStorageKeys := ∅; cachingAllowed := false; world := w |}.

End CrossSigningManager.

Arguments Build_Result {_ A} outcome final calls.
Arguments outcome {_ A} r.
Arguments final {_ A} r.
Arguments calls {_ A} r.

Arguments getSecretStorageKey : simpl never.
Arguments authUploadDeviceSigningKeys : simpl never.
Arguments ensureBootstrapped : simpl never.
Arguments bootstrapThenRun : simpl never.
Arguments accessSecretStorage : simpl never.

(** ** A scripted client

    One concrete set of collaborators, used to run the module on examples.
    The world is a script of what the user and the account will do. *)

Record Script : Type := {
  script_hasKey : bool;
  script_typed : option Input;
  script_confirmsCreation : bool;
  script_confirmsAuth : bool;
}.

Definition letThrough {A} (o : Outcome A)
  : Ext Script (BootstrapE unit) A := Settle o.

(** The access dialog of the script: the user closes it, or types one input
    that the dialog checks and hands back when it is accepted. *)
Definition scriptedAccessDialog (info : KeyInfo)
  : Ext Script DialogE (option Input) :=
  Env (λ w, w) (λ w,
    match script_typed w with
    | None => Settle (Returned None)
    | Some input =>
        Vis (CheckPrivateKey input) (λ o,
          match o with
          | Returned true => Settle (Returned (Some input))
          | Returned false => Settle (Returned None)
          | Thrown e => Settle (Thrown e)
          | Pending => Settle Pending
          end)
    end).

(** A subsystem that always uploads cross-signing keys. *)
Definition scriptedBootstrap : Ext Script (BootstrapE unit) unit :=
  Vis (AuthUploadDeviceSigningKeys tt) letThrough.

(** A toy key derivation: the key is the passphrase's bytes followed by the
    salt's, and a recovery key decodes to its bytes. *)
Definition scripted : Collaborators := {|
  World := Script;
  MakeRequest := unit;
  deriveKey := λ p salt _,
    Returned (String.list_byte_of_string p ++ String.list_byte_of_string salt)%list;
  decodeRecoveryKey := λ r,
    match r with
    | Some code => Returned (String.list_byte_of_string code)
    | None => Thrown TypeError
    end;
  checkSecretStoragePrivateKey := λ key pub,
    Returned (length key =? String.length pub)%nat;
  hasSecretStorageKey := λ w, Returned (script_hasKey w);
  bootstrapSecretStorage := scriptedBootstrap;
  accessSecretStorageDialog := scriptedAccessDialog;
  createSecretStorageDialog :=
    Env (λ w, w) (λ w, Settle (Returned (script_confirmsCreation w)));
  interactiveAuthDialog := λ _,
    Env (λ w, w) (λ w, Settle (Returned (script_confirmsAuth w)));
|}.

Definition exampleInfo : KeyInfo :=
  {| passphrase := Some {| salt := "NaCl"; iterations := 500000 |};
     pubkey := "pubkey12" |}.

Definition exampleRequest : KeyRequest :=
  {| keys := [("key1", exampleInfo)] |}.

Definition passphraseInput : Input :=
  {| input_passphrase := Some "abcd"; input_recoveryKey := None |}.

Definition emptyPassphraseInput : Input :=
  {| input_passphrase := Some ""; input_recoveryKey := None |}.

Definition exampleScript : Script :=
  {| script_hasKey := true;
     script_typed := Some passphraseInput;
     script_confirmsCreation := true;
     script_confirmsAuth := true |}.

(** The module as it is loaded: nothing cached, the gate closed. *)
Definition initialState (w : Script) : @State scripted :=
  @Build_State scripted ∅ false w.

Definition twoKeyRequest : KeyRequest :=
  {| keys := [("key1", exampleInfo); ("key2", exampleInfo)] |}.

(** Inside a scope: the gate open, nothing cached yet. *)
Definition openState (w : Script) : @State scripted :=
  @Build_State scripted ∅ true w.

(** Outside any scope, with a stale entry physically there. *)
Definition staleState (w : Script) : @State scripted :=
  @Build_State scripted {["key1" := []]} false w.

(** The user closes the access dialog. *)
Definition closingScript : Script :=
  {| script_hasKey := true;
     script_typed := None;
     script_confirmsCreation := true;
     script_confirmsAuth := true |}.

(** The account has no secret storage and the user gives up creating it. *)
Definition noStorageScript : Script :=
  {| script_hasKey := false;
     script_typed := Some passphraseInput;
     script_confirmsCreation := false;
     script_confirmsAuth := true |}.

(** The user declines the interactive authentication. *)
Definition decliningScript : Script :=
  {| script_hasKey := true;
     script_typed := Some passphraseInput;
     script_confirmsCreation := true;
     script_confirmsAuth := false |}.

Definition exampleKey : Key :=
  String.list_byte_of_string "abcdNaCl".

(** A description that carries no passphrase parameters. *)
Definition recoveryOnlyInfo : KeyInfo :=
  {| passphrase := None; pubkey := "pubkey12" |}.

(** Forgets what a key request returned. *)
Definition keyFetched (o : Outcome (string * Value))
  : Ext Script (BootstrapE unit) unit :=
  match o with
  | Returned _ => Settle (Returned tt)
  | Thrown e => Settle (Thrown e)
  | Pending => Settle Pending
  end.

(** A client whose cross-signing keys are already uploaded: its bootstrap
    only fetches the storage key. *)
Definition quietClient : Collaborators := {|
  World := Script;
  MakeRequest := unit;
  deriveKey := deriveKey (Collaborators := scripted);
  decodeRecoveryKey := decodeRecoveryKey (Collaborators := scripted);
  checkSecretStoragePrivateKey :=
    checkSecretStoragePrivateKey (Collaborators := scripted);
  hasSecretStorageKey := hasSecretStorageKey (Collaborators := scripted);
  bootstrapSecretStorage :=
    Vis (BootstrapGetSecretStorageKey exampleRequest) keyFetched;
  accessSecretStorageDialog := scriptedAccessDialog;
  createSecretStorageDialog :=
    createSecretStorageDialog (Collaborators := scripted);
  interactiveAuthDialog := interactiveAuthDialog (Collaborators := scripted);
|}.

(** A client whose access dialog hands back what was typed without
    checking it. *)
Definition trustingClient : Collaborators := {|
  World := Script;
  MakeRequest := unit;
  deriveKey := deriveKey (Collaborators := scripted);
  decodeRecoveryKey := decodeRecoveryKey (Collaborators := scripted);
  checkSecretStoragePrivateKey :=
    checkSecretStoragePrivateKey (Collaborators := scripted);
  hasSecretStorageKey := hasSecretStorageKey (Collaborators := scripted);
  bootstrapSecretStorage := scriptedBootstrap;
  accessSecretStorageDialog := λ _,
    Env (λ w, w) (λ w, Settle (Returned (script_typed w)));
  createSecretStorageDialog :=
    createSecretStorageDialog (Collaborators := scripted);
  interactiveAuthDialog := interactiveAuthDialog (Collaborators := scripted);
|}.



(** A client whose world is the list of what the user will do at each
    access dialog in turn: close it, or type an input. *)
Definition queuedAccessDialog (info : KeyInfo)
  : Ext (list (option Input)) DialogE (option Input) :=
  Env (λ w, tail w) (λ w,
    match w with
    | Some input :: _ =>
        Vis (CheckPrivateKey input) (λ o,
          match o with
          | Returned true => Settle (Returned (Some input))
          | Returned false => Settle (Returned None)
          | Thrown e => Settle (Thrown e)
          | Pending => Settle Pending
          end)
    | _ => Settle (Returned None)
    end).

Definition queuedClient : Collaborators := {|
  World := list (option Input);
  MakeRequest := unit;
  deriveKey := deriveKey (Collaborators := scripted);
  decodeRecoveryKey := decodeRecoveryKey (Collaborators := scripted);
  checkSecretStoragePrivateKey :=
    checkSecretStoragePrivateKey (Collaborators := scripted);
  hasSecretStorageKey := λ _, Returned true;
  bootstrapSecretStorage := Settle (Returned tt);
  accessSecretStorageDialog := queuedAccessDialog;
  createSecretStorageDialog := Settle (Returned true);
  interactiveAuthDialog := λ _, Settle (Returned true);
|}.

(** A client that is not logged in: [MatrixClientPeg.get()] is [null] and
    calling [cli.hasSecretStorageKey()] is a type error. *)
Definition loggedOutClient : Collaborators := {|
  World := Script;
  MakeRequest := unit;
  deriveKey := deriveKey (Collaborators := scripted);
  decodeRecoveryKey := decodeRecoveryKey (Collaborators := scripted);
  checkSecretStoragePrivateKey :=
    checkSecretStoragePrivateKey (Collaborators := scripted);
  hasSecretStorageKey := λ _, Thrown TypeError;
  bootstrapSecretStorage := scriptedBootstrap;
  accessSecretStorageDialog := scriptedAccessDialog;
  createSecretStorageDialog :=
    createSecretStorageDialog (Collaborators := scripted);
  interactiveAuthDialog := interactiveAuthDialog (Collaborators := scripted);
|}.

(** The same states for the other clients. *)
Definition trustingState : @State trustingClient :=
  @Build_State trustingClient ∅ true exampleScript.

Definition quietState : @State quietClient :=
  @Build_State quietClient ∅ false exampleScript.

Definition loggedOutState : @State loggedOutClient :=
  @Build_State loggedOutClient ∅ false exampleScript.

Definition recoveryOnlyRequest : KeyRequest :=
  {| keys := [("key1", recoveryOnlyInfo)] |}.




(** An operation that asks for the example key and asks once more when the
    first request fails. *)
Definition retryingOperation
  : Ext (list (option Input)) ClientE (string * Value) :=
  Vis (GetSecretStorageKey exampleRequest) (λ o,
    match o with
    | Returned v => Settle (Returned v)
    | _ => Vis (GetSecretStorageKey exampleRequest) Settle
    end).

(** An operation that asks for the example key and gives back what it
    gets. *)
Definition exampleOperation : Ext Script ClientE (string * Value) :=
  Vis (GetSecretStorageKey exampleRequest) Settle.

(** ** Properties *)

Section Properties.

Context `{Collaborators}.

Ltac unfold_M :=
  unfold bind, ret, throw, await, get, modify, logCall, observe, tryFinally;
  simpl.

Lemma bind_modify {A} (f : State → State) (k : unit → M A) (s : State) :
  bind (modify f) k s = k tt (f s).
Proof. unfold_M. destruct (k tt (f s)); reflexivity. Qed.

(** Whatever the body of the [try] does, once it settles the [finally] block
    has reset both variables. *)
Lemma tryFinally_clearCache {A} (body : M A) (s : State) :
  settled (outcome (tryFinally body clearCache s)) = true →
  cachingAllowed (final (tryFinally body clearCache s)) = false
  ∧ secretStorageKeys (final (tryFinally body clearCache s)) = ∅
  ∧ outcome (tryFinally body clearCache s) = outcome (body s).
Proof.
  unfold tryFinally, clearCache.
  destruct (outcome (body s)) eqn:Hbody; simpl; try rewrite Hbody; simpl;
    intros Hsettled; try discriminate; auto.
Qed.

(** *** The access dialog touches neither variable and calls no dialog *)

Lemma run_dialogProps_frame (info : KeyInfo)
    (t : Ext World DialogE (option Input)) (s : State) :
  secretStorageKeys (final (run (dialogProps info) t s)) = secretStorageKeys s
  ∧ cachingAllowed (final (run (dialogProps info) t s)) = cachingAllowed s
  ∧ calls (run (dialogProps info) t s) = [].
Proof.
  revert s. induction t as [o | upd k IH | X e k IH]; intros s; simpl.
  - auto.
  - destruct (IH (world s) (setWorld (upd (world s)) s)) as (-> & -> & ->).
    auto.
  - destruct e as [input]. unfold_M.
    destruct (IH (checkPrivateKey info input) s) as (-> & -> & ->). auto.
Qed.

Lemma accessDialogFinished_frame (info : KeyInfo) (s : State) :
  secretStorageKeys (final (accessDialogFinished info s)) = secretStorageKeys s
  ∧ cachingAllowed (final (accessDialogFinished info s)) = cachingAllowed s
  ∧ calls (accessDialogFinished info s) = [].
Proof. apply run_dialogProps_frame. Qed.

(** *** getSecretStorageKey, case by case *)

Lemma getSecretStorageKey_hit name info value (s : State) :
  cacheLookup name s = Some value →
  getSecretStorageKey {| keys := [(name, info)] |} s =
    {| outcome := Returned (name, value); final := s; calls := [] |}.
Proof.
  intros Hhit. unfold getSecretStorageKey. simpl. unfold_M.
  rewrite Hhit. reflexivity.
Qed.

(** Without a cache hit the dialog is shown, and its outcome decides. *)
Lemma getSecretStorageKey_miss name info (s : State) :
  cacheLookup name s = None →
  let shown := accessDialogFinished info s in
  let r := getSecretStorageKey {| keys := [(name, info)] |} s in
  calls r = [AccessSecretStorageDialog name (outcome shown)]
  ∧ cachingAllowed (final r) = cachingAllowed s
  ∧ world (final r) = world (final shown)
  ∧ match outcome shown with
    | Returned (Some input) =>
        match inputToKey info input with
        | Returned key =>
            outcome r = Returned (name, KeyValue key)
            ∧ secretStorageKeys (final r) =
                if cachingAllowed s then <[name := key]> (secretStorageKeys s)
                else secretStorageKeys s
        | Thrown e =>
            outcome r = Thrown e
            ∧ secretStorageKeys (final r) = secretStorageKeys s
        | Pending =>
            outcome r = Pending
            ∧ secretStorageKeys (final r) = secretStorageKeys s
        end
    | Returned None =>
        outcome r = Thrown SecretStorageAccessCanceled
        ∧ secretStorageKeys (final r) = secretStorageKeys s
    | Thrown e =>
        outcome r = Thrown e
        ∧ secretStorageKeys (final r) = secretStorageKeys s
    | Pending =>
        outcome r = Pending
        ∧ secretStorageKeys (final r) = secretStorageKeys s
    end.
Proof.
  intros Hmiss shown r. subst r.
  destruct (accessDialogFinished_frame info s) as (Hkeys & Hgate & Hcalls).
  fold shown in Hkeys, Hgate, Hcalls.
  unfold getSecretStorageKey. simpl. unfold_M. rewrite Hmiss. simpl.
  fold shown. rewrite Hcalls.
  destruct (outcome shown) as [[input|]|e|]; simpl; auto.
  destruct (inputToKey info input) as [key|e|]; simpl; auto.
  rewrite Hgate, Hkeys.
  destruct (cachingAllowed s); simpl; auto.
Qed.

(** A request has several entries, none, or exactly one. *)
Lemma KeyRequest_cases (req : KeyRequest) :
  1 < length (keys req)
  ∨ keys req = []
  ∨ ∃ name info, req = {| keys := [(name, info)] |}.
Proof.
  destruct req as [[|[name info] [|entry rest]]]; simpl.
  - right; left; reflexivity.
  - right; right; eauto.
  - left; lia.
Qed.

Lemma getSecretStorageKey_several (req : KeyRequest) (s : State) :
  1 < length (keys req) →
  getSecretStorageKey req s =
    throw (Error "Multiple storage key requests not implemented") s.
Proof.
  intros Hlen. unfold getSecretStorageKey.
  rewrite bool_decide_eq_true_2 by exact Hlen. reflexivity.
Qed.

Lemma getSecretStorageKey_none (req : KeyRequest) (s : State) :
  keys req = [] → getSecretStorageKey req s = throw TypeError s.
Proof.
  intros Hkeys. unfold getSecretStorageKey. rewrite Hkeys. reflexivity.
Qed.

Ltac request_cases req s :=
  let Hlen := fresh "Hlen" in
  let Hnone := fresh "Hnone" in
  let name := fresh "name" in
  let info := fresh "info" in
  destruct (KeyRequest_cases req) as [Hlen | [Hnone | (name & info & ->)]];
  [ rewrite (getSecretStorageKey_several req s Hlen)
  | rewrite (getSecretStorageKey_none req s Hnone)
  | ].

(** *** What every request leaves alone *)

Lemma getSecretStorageKey_gate (req : KeyRequest) (s : State) :
  cachingAllowed (final (getSecretStorageKey req s)) = cachingAllowed s.
Proof.
  request_cases req s; try reflexivity.
  destruct (cacheLookup name s) as [key|] eqn:Hlookup.
  - rewrite (getSecretStorageKey_hit _ _ _ _ Hlookup). reflexivity.
  - apply (getSecretStorageKey_miss name info s Hlookup).
Qed.

Lemma getSecretStorageKey_calls (req : KeyRequest) (s : State) :
  forallb isAccessDialog (calls (getSecretStorageKey req s)) = true.
Proof.
  request_cases req s; try reflexivity.
  destruct (cacheLookup name s) as [key|] eqn:Hlookup.
  - rewrite (getSecretStorageKey_hit _ _ _ _ Hlookup). reflexivity.
  - destruct (getSecretStorageKey_miss name info s Hlookup) as (-> & _).
    reflexivity.
Qed.

(** A cached entry survives every request, and a request for its name
    shows no dialog. *)
Lemma getSecretStorageKey_cached name key (req : KeyRequest) (s : State) :
  cached name key s →
  cached name key (final (getSecretStorageKey req s))
  ∧ existsb (isAccessDialogFor name) (calls (getSecretStorageKey req s))
    = false.
Proof.
  unfold cached. intros Hcached.
  request_cases req s; try (split; auto; fail).
  destruct (cacheLookup name0 s) as [value0|] eqn:Hlookup.
  - rewrite (getSecretStorageKey_hit _ _ _ _ Hlookup). split; auto.
  - assert (name0 ≠ name) as Hne by (intros ->; congruence).
    destruct (getSecretStorageKey_miss name0 info s Hlookup)
      as (Hcalls & Hgate' & _ & Hrest).
    cbv zeta in Hcalls, Hgate', Hrest.
    split.
    + unfold cacheLookup in *. rewrite Hgate'.
      destruct (cachingAllowed s); [|discriminate].
      destruct (outcome (accessDialogFinished info s)) as [[input|]|e|];
        try (destruct Hrest as [_ ->]; exact Hcached).
      destruct (inputToKey info input) as [key1|e|];
        try (destruct Hrest as [_ ->]; exact Hcached).
      destruct Hrest as [_ ->]. unfold getProperty in *.
      rewrite lookup_insert_ne by exact Hne. exact Hcached.
    + rewrite Hcalls. simpl.
      rewrite bool_decide_eq_false_2 by exact Hne. reflexivity.
Qed.

(** *** Collaborators that call back keep what their callbacks keep *)

Lemma run_Vis {E R X} (h : ∀ X, E X → M X) (e : E X)
    (k : Outcome X → Ext World E R) (s : State) :
  let r := h X e s in
  let r' := run h (k (outcome r)) (final r) in
  outcome (run h (Vis e k) s) = outcome r'
  ∧ final (run h (Vis e k) s) = final r'
  ∧ calls (run h (Vis e k) s) = (calls r ++ calls r')%list.
Proof. simpl. unfold_M. auto. Qed.

Lemma run_preserves {E R} (h : ∀ X, E X → M X)
    (I : State → Prop) (P : Call → Prop) :
  (∀ s w, I s → I (setWorld w s)) →
  (∀ X (e : E X) s, I s → I (final (h X e s)) ∧ Forall P (calls (h X e s))) →
  ∀ (t : Ext World E R) s,
    I s → I (final (run h t s)) ∧ Forall P (calls (run h t s)).
Proof.
  intros Hworld Hh.
  induction t as [o | upd k IH | X e k IH]; intros s Hs.
  - simpl. auto.
  - simpl. apply IH, Hworld, Hs.
  - destruct (run_Vis h e k s) as (_ & -> & ->).
    destruct (Hh X e s Hs) as [Hs' Hcalls'].
    destruct (IH (outcome (h X e s)) (final (h X e s)) Hs') as [Hs'' Hcalls''].
    split; [exact Hs'' | apply Forall_app; auto].
Qed.

Lemma forallb_Forall_true (p : Call → bool) (l : list Call) :
  forallb p l = true → Forall (λ c, p c = true) l.
Proof.
  intros Hall. apply List.Forall_forall. intros c Hc.
  rewrite List.forallb_forall in Hall. auto.
Qed.

Lemma Forall_existsb_false (P : Call → Prop) (p : Call → bool)
    (l : list Call) :
  (∀ c, P c → p c = false) → Forall P l → existsb p l = false.
Proof.
  intros HP Hall. induction Hall as [|c l Hc _ IH]; simpl.
  - reflexivity.
  - rewrite (HP c Hc). exact IH.
Qed.

(** Code that only holds [crossSigningCallbacks] shows access dialogs only. *)
Lemma run_crossSigningCallbacks_calls {R} (t : Ext World ClientE R)
    (s : State) :
  Forall (λ c, isAccessDialog c = true) (calls (run crossSigningCallbacks t s)).
Proof.
  apply (run_preserves crossSigningCallbacks (λ _, True)); auto.
  intros X e s' _. destruct e as [req]. split; [exact I|].
  apply forallb_Forall_true, getSecretStorageKey_calls.
Qed.

(** While an entry is cached, such code shows no dialog for its name and
    leaves it cached. *)
Lemma run_crossSigningCallbacks_cached {R} name key
    (t : Ext World ClientE R) (s : State) :
  cached name key s →
  cached name key (final (run crossSigningCallbacks t s))
  ∧ Forall (λ c, isAccessDialogFor name c = false)
      (calls (run crossSigningCallbacks t s)).
Proof.
  apply (run_preserves crossSigningCallbacks (cached name key)).
  - intros s' w Hs'. exact Hs'.
  - intros X e s' Hs'. destruct e as [req].
    destruct (getSecretStorageKey_cached name key req s' Hs') as [Hc Hd].
    split; [exact Hc|].
    apply List.Forall_forall. intros c Hin.
    destruct (isAccessDialogFor name c) eqn:Hc'; [|reflexivity].
    assert (existsb (isAccessDialogFor name)
              (calls (crossSigningCallbacks _ (GetSecretStorageKey req) s'))
            = true) as Hex
      by (apply List.existsb_exists; eauto).
    simpl in Hex. congruence.
Qed.

(** *** The upload callback *)

Lemma authUploadDeviceSigningKeys_result (makeRequest : MakeRequest)
    (s : State) :
  let shown := authDialogFinished makeRequest s in
  let r := authUploadDeviceSigningKeys makeRequest s in
  calls r = (calls shown ++ [InteractiveAuthDialog (outcome shown)])%list
  ∧ final r = final shown
  ∧ outcome r =
      match outcome shown with
      | Returned true => Returned tt
      | Returned false => Thrown CrossSigningUploadAuthCanceled
      | Thrown e => Thrown e
      | Pending => Pending
      end.
Proof.
  intros shown r. subst r. unfold authUploadDeviceSigningKeys. unfold_M.
  fold shown. destruct (outcome shown) as [[|]|e|]; simpl; auto.
Qed.

Lemma authUploadDeviceSigningKeys_calls (makeRequest : MakeRequest)
    (s : State) :
  Forall (λ c, isAccessDialog c = true ∨ isAuthDialog c = true)
    (calls (authUploadDeviceSigningKeys makeRequest s)).
Proof.
  destruct (authUploadDeviceSigningKeys_result makeRequest s) as (-> & _).
  apply Forall_app. split.
  - eapply Forall_impl; [apply run_crossSigningCallbacks_calls|].
    simpl. auto.
  - constructor; [right; reflexivity | constructor].
Qed.

Lemma run_bootstrapOptions_calls {R}
    (t : Ext World (BootstrapE MakeRequest) R) (s : State) :
  Forall (λ c, isAccessDialog c = true ∨ isAuthDialog c = true)
    (calls (run bootstrapOptions t s)).
Proof.
  apply (run_preserves bootstrapOptions (λ _, True)); auto.
  intros X e s' _. split; [exact I|]. destruct e as [req | makeRequest].
  - eapply Forall_impl;
      [apply forallb_Forall_true, getSecretStorageKey_calls|].
    simpl. auto.
  - apply authUploadDeviceSigningKeys_calls.
Qed.

Lemma run_bootstrapOptions_cached {R} name key
    (t : Ext World (BootstrapE MakeRequest) R) (s : State) :
  cached name key s →
  cached name key (final (run bootstrapOptions t s))
  ∧ Forall (λ c, isAccessDialogFor name c = false)
      (calls (run bootstrapOptions t s)).
Proof.
  apply (run_preserves bootstrapOptions (cached name key)).
  - intros s' w Hs'. exact Hs'.
  - intros X e s' Hs'. destruct e as [req | makeRequest].
    + destruct (getSecretStorageKey_cached name key req s' Hs') as [Hc Hd].
      split; [exact Hc|].
      apply List.Forall_forall. intros c Hin.
      destruct (isAccessDialogFor name c) eqn:Hc'; [|reflexivity].
      assert (existsb (isAccessDialogFor name)
                (calls (getSecretStorageKey req s')) = true) as Hex
        by (apply List.existsb_exists; eauto).
      congruence.
    + change (bootstrapOptions _ (AuthUploadDeviceSigningKeys makeRequest) s')
        with (authUploadDeviceSigningKeys makeRequest s').
      destruct (authUploadDeviceSigningKeys_result makeRequest s')
        as (-> & -> & _).
      destruct (run_crossSigningCallbacks_cached name key
                  (interactiveAuthDialog makeRequest) s' Hs') as [Hc Hd].
      split; [exact Hc|]. apply Forall_app. split; [exact Hd|].
      repeat constructor.
Qed.


(** *** The two bootstrap paths and the scope around them *)

Lemma ensureBootstrapped_create (s : State) :
  hasSecretStorageKey (world s) = Returned false →
  let shown := createDialogFinished s in
  let b := ensureBootstrapped s in
  calls b = (calls shown ++ [CreateSecretStorageDialog (outcome shown)])%list
  ∧ final b = final shown
  ∧ outcome b =
      match outcome shown with
      | Returned true => Returned tt
      | Returned false => Thrown SecretStorageCreationCanceled
      | Thrown e => Thrown e
      | Pending => Pending
      end.
Proof.
  intros Hhas shown b. subst b. unfold ensureBootstrapped. unfold_M.
  rewrite Hhas. simpl. fold shown.
  destruct (outcome shown) as [[|]|e|]; simpl; auto.
Qed.

Lemma ensureBootstrapped_access (s : State) :
  hasSecretStorageKey (world s) = Returned true →
  let boot := run bootstrapOptions bootstrapSecretStorage s in
  let b := ensureBootstrapped s in
  calls b = BootstrapSecretStorage :: calls boot
  ∧ final b = final boot
  ∧ outcome b = outcome boot.
Proof.
  intros Hhas boot b. subst b. unfold ensureBootstrapped. unfold_M.
  rewrite Hhas. simpl. fold boot.
  destruct (outcome boot) as [[]|e|]; simpl; auto.
Qed.

Lemma bootstrapThenRun_result {R} (func : Ext World ClientE R) (s : State) :
  let b := ensureBootstrapped s in
  let op := run crossSigningCallbacks func (final b) in
  let body := bootstrapThenRun func s in
  match outcome b with
  | Returned _ =>
      calls body = (calls b ++ Func :: calls op)%list
      ∧ final body = final op
      ∧ outcome body = outcome op
  | Thrown e => calls body = calls b ∧ final body = final b
                ∧ outcome body = Thrown e
  | Pending => calls body = calls b ∧ final body = final b
               ∧ outcome body = Pending
  end.
Proof.
  intros b op body. subst body. unfold bootstrapThenRun, bind, logCall.
  cbv beta zeta. fold b.
  destruct (outcome b) as [[]|e|]; cbn [outcome final calls app]; auto.
Qed.

Lemma accessSecretStorage_result {R} (func : Ext World ClientE R)
    (s : State) :
  let body := bootstrapThenRun func (setCachingAllowed true s) in
  let r := accessSecretStorage func s in
  calls r = calls body
  ∧ (settled (outcome body) = true →
     outcome r = outcome body
     ∧ cachingAllowed (final r) = false
     ∧ secretStorageKeys (final r) = ∅)
  ∧ (outcome body = Pending → r = body).
Proof.
  intros body r. subst r body. unfold accessSecretStorage.
  rewrite bind_modify. unfold tryFinally, clearCache. cbv zeta.
  generalize (bootstrapThenRun func (setCachingAllowed true s)) as body.
  intros body.
  destruct (outcome body) eqn:Hbody; simpl; rewrite ?app_nil_r;
    (split; [reflexivity|]); split; intros Hx;
    try discriminate; auto.
Qed.


(** *** A dialog that checks before it hands back *)


(** An invocation that ends has run its [finally] block. *)
Lemma accessSecretStorage_settled {R} (func : Ext World ClientE R)
    (s : State) :
  settled (outcome (accessSecretStorage func s)) = true →
  cachingAllowed (final (accessSecretStorage func s)) = false
  ∧ secretStorageKeys (final (accessSecretStorage func s)) = ∅.
Proof.
  unfold accessSecretStorage. rewrite bind_modify. intros Hsettled.
  destruct (tryFinally_clearCache _ _ Hsettled) as (Hgate & Hkeys & _).
  auto.
Qed.

(** *** What a request does to the cache, whatever the request *)

Lemma getSecretStorageKey_keys (req : KeyRequest) (s : State) :
  (cachingAllowed s = false →
   secretStorageKeys (final (getSecretStorageKey req s)) = secretStorageKeys s)
  ∧ ((∀ v, outcome (getSecretStorageKey req s) ≠ Returned v) →
     secretStorageKeys (final (getSecretStorageKey req s))
     = secretStorageKeys s)
  ∧ (∀ name', (∀ info, keys req ≠ [(name', info)]) →
     secretStorageKeys (final (getSecretStorageKey req s)) !! name'
     = secretStorageKeys s !! name')
  ∧ (length (calls (getSecretStorageKey req s)) ≤ 1)%nat.
Proof.
  request_cases req s;
    try (cbn [final calls throw length]; repeat split; auto; lia).
  destruct (cacheLookup name s) as [key|] eqn:Hlookup.
  { rewrite (getSecretStorageKey_hit _ _ _ _ Hlookup).
    cbn [final calls length]. repeat split; auto; lia. }
  destruct (getSecretStorageKey_miss name info s Hlookup)
    as (Hcalls & _ & _ & Hrest).
  cbv zeta in Hcalls, Hrest. rewrite Hcalls. cbn [length].
  destruct (outcome (accessDialogFinished info s)) as [[input|]|e|];
    try (destruct Hrest as [_ ->]; repeat split; auto; lia).
  destruct (inputToKey info input) as [key|e|];
    try (destruct Hrest as [_ ->]; repeat split; auto; lia).
  destruct Hrest as [Hout ->]. split; [|split; [|split]].
  - intros ->. reflexivity.
  - intros Hnot. exfalso. exact (Hnot _ Hout).
  - intros name' Hother. destruct (cachingAllowed s); [|reflexivity].
    apply lookup_insert_ne. intros ->. exact (Hother info eq_refl).
  - lia.
Qed.

(** *** The gate stays as it is until the [finally] block *)

Lemma run_crossSigningCallbacks_gate {R} (t : Ext World ClientE R)
    (s : State) :
  cachingAllowed (final (run crossSigningCallbacks t s)) = cachingAllowed s.
Proof.
  apply (run_preserves crossSigningCallbacks
           (λ s', cachingAllowed s' = cachingAllowed s) (λ _, True));
    [auto | | reflexivity].
  intros X e s' Hs'. destruct e as [req]. split; [|apply Forall_true; auto].
  simpl. rewrite getSecretStorageKey_gate. exact Hs'.
Qed.

Lemma run_bootstrapOptions_gate {R}
    (t : Ext World (BootstrapE MakeRequest) R) (s : State) :
  cachingAllowed (final (run bootstrapOptions t s)) = cachingAllowed s.
Proof.
  apply (run_preserves bootstrapOptions
           (λ s', cachingAllowed s' = cachingAllowed s) (λ _, True));
    [auto | | reflexivity].
  intros X e s' Hs'. split; [|apply Forall_true; auto].
  destruct e as [req | makeRequest].
  - simpl. rewrite getSecretStorageKey_gate. exact Hs'.
  - change (bootstrapOptions _ (AuthUploadDeviceSigningKeys makeRequest) s')
      with (authUploadDeviceSigningKeys makeRequest s').
    destruct (authUploadDeviceSigningKeys_result makeRequest s')
      as (_ & -> & _).
    unfold authDialogFinished. rewrite run_crossSigningCallbacks_gate.
    exact Hs'.
Qed.

(** *** The creation dialog and the bootstrap it makes by itself *)

Lemma run_dialogBootstrapOptions_gate {R}
    (authUpload : MakeRequest → Ext World ClientE unit)
    (t : Ext World (BootstrapE MakeRequest) R) (s : State) :
  cachingAllowed (final (run (dialogBootstrapOptions authUpload) t s))
  = cachingAllowed s.
Proof.
  apply (run_preserves (dialogBootstrapOptions authUpload)
           (λ s', cachingAllowed s' = cachingAllowed s) (λ _, True));
    [auto | | reflexivity].
  intros X e s' Hs'. split; [|apply Forall_true; auto].
  destruct e as [req | makeRequest]; simpl.
  - rewrite getSecretStorageKey_gate. exact Hs'.
  - rewrite run_crossSigningCallbacks_gate. exact Hs'.
Qed.

Lemma run_dialogBootstrapOptions_calls {R}
    (authUpload : MakeRequest → Ext World ClientE unit)
    (t : Ext World (BootstrapE MakeRequest) R) (s : State) :
  Forall (λ c, isAccessDialog c = true)
    (calls (run (dialogBootstrapOptions authUpload) t s)).
Proof.
  apply (run_preserves (dialogBootstrapOptions authUpload) (λ _, True));
    auto.
  intros X e s' _. split; [exact I|].
  destruct e as [req | makeRequest]; simpl.
  - apply forallb_Forall_true, getSecretStorageKey_calls.
  - apply run_crossSigningCallbacks_calls.
Qed.

Lemma createDialogProps_bootstrap
    (authUpload : MakeRequest → Ext World ClientE unit) (s : State) :
  let boot :=
    run (dialogBootstrapOptions authUpload) bootstrapSecretStorage s in
  let r := createDialogProps _ (CreateBootstrapSecretStorage authUpload) s in
  calls r = DialogBootstrapSecretStorage :: calls boot
  ∧ final r = final boot
  ∧ outcome r = outcome boot.
Proof.
  intros boot r. subst r. simpl. unfold_M. fold boot.
  destruct (outcome boot) as [[]|e|]; simpl; auto.
Qed.

Lemma run_createDialogProps_gate {R}
    (t : Ext World (CreateE World MakeRequest) R) (s : State) :
  cachingAllowed (final (run createDialogProps t s)) = cachingAllowed s.
Proof.
  apply (run_preserves createDialogProps
           (λ s', cachingAllowed s' = cachingAllowed s) (λ _, True));
    [auto | | reflexivity].
  intros X e s' Hs'. split; [|apply Forall_true; auto].
  destruct e as [req | authUpload].
  - simpl. rewrite getSecretStorageKey_gate. exact Hs'.
  - destruct (createDialogProps_bootstrap authUpload s') as (_ & -> & _).
    rewrite run_dialogBootstrapOptions_gate. exact Hs'.
Qed.

(** The creation dialog shows access dialogs and calls the bootstrap by
    itself; it never reaches the module's own bootstrap call, the
    interactive-auth dialog or [func]. *)
Lemma run_createDialogProps_calls {R}
    (t : Ext World (CreateE World MakeRequest) R) (s : State) :
  Forall (λ c, isAccessDialog c = true ∨ isDialogBootstrap c = true)
    (calls (run createDialogProps t s)).
Proof.
  apply (run_preserves createDialogProps (λ _, True)); auto.
  intros X e s' _. split; [exact I|]. destruct e as [req | authUpload].
  - eapply Forall_impl;
      [apply forallb_Forall_true, getSecretStorageKey_calls|].
    simpl. auto.
  - destruct (createDialogProps_bootstrap authUpload s') as (-> & _).
    constructor; [right; reflexivity|].
    eapply Forall_impl; [apply run_dialogBootstrapOptions_calls|].
    simpl. auto.
Qed.

(** When [cli.hasSecretStorageKey()] itself fails, nothing else happens. *)
Lemma ensureBootstrapped_check (s : State) :
  match hasSecretStorageKey (world s) with
  | Returned _ => True
  | Thrown e => ensureBootstrapped s = throw e s
  | Pending => ensureBootstrapped s = await Pending s
  end.
Proof.
  unfold ensureBootstrapped. unfold_M.
  destruct (hasSecretStorageKey (world s)); auto.
Qed.

Lemma ensureBootstrapped_gate (s : State) :
  cachingAllowed (final (ensureBootstrapped s)) = cachingAllowed s.
Proof.
  pose proof (ensureBootstrapped_check s) as Hcheck.
  destruct (hasSecretStorageKey (world s)) as [[|]|e|] eqn:Hhas.
  - destruct (ensureBootstrapped_access s Hhas) as (_ & -> & _).
    apply run_bootstrapOptions_gate.
  - destruct (ensureBootstrapped_create s Hhas) as (_ & -> & _).
    apply run_createDialogProps_gate.
  - rewrite Hcheck. reflexivity.
  - rewrite Hcheck. reflexivity.
Qed.

Lemma bootstrapThenRun_gate {R} (func : Ext World ClientE R) (s : State) :
  cachingAllowed (final (bootstrapThenRun func s)) = cachingAllowed s.
Proof.
  pose proof (bootstrapThenRun_result func s) as Hbody. cbv zeta in Hbody.
  destruct (outcome (ensureBootstrapped s)) as [[]|e|];
    destruct Hbody as (_ & -> & _);
    rewrite ?run_crossSigningCallbacks_gate; apply ensureBootstrapped_gate.
Qed.

(** The [if]/[else] never runs the operation, shows the creation dialog
    only without a storage key and calls the bootstrap only with one. *)
Lemma ensureBootstrapped_calls (s : State) :
  existsb isFunc (calls (ensureBootstrapped s)) = false
  ∧ (hasSecretStorageKey (world s) ≠ Returned false →
     existsb isCreateDialog (calls (ensureBootstrapped s)) = false)
  ∧ (hasSecretStorageKey (world s) = Returned true →
     ∃ rest, calls (ensureBootstrapped s) = BootstrapSecretStorage :: rest
             ∧ existsb isBootstrap rest = false).
Proof.
  pose proof (ensureBootstrapped_check s) as Hcheck.
  assert (∀ p : Call → bool,
            (∀ c, isAccessDialog c = true ∨ isAuthDialog c = true →
                  p c = false) →
            existsb p (calls (run bootstrapOptions bootstrapSecretStorage s))
            = false) as Hboot.
  { intros p Hp. eapply Forall_existsb_false; [exact Hp|].
    apply run_bootstrapOptions_calls. }
  assert (∀ p : Call → bool,
            (∀ c, isAccessDialog c = true ∨ isDialogBootstrap c = true →
                  p c = false) →
            existsb p (calls (createDialogFinished s)) = false) as Hshown.
  { intros p Hp. eapply Forall_existsb_false; [exact Hp|].
    apply run_createDialogProps_calls. }
  destruct (hasSecretStorageKey (world s)) as [[|]|e|] eqn:Hhas.
  - destruct (ensureBootstrapped_access s Hhas) as (-> & _).
    cbn [existsb isFunc isCreateDialog orb].
    rewrite !Hboot by (intros [] [|]; simpl in *; congruence).
    split; [reflexivity|]. split; [reflexivity|]. intros _.
    eexists. split; [reflexivity|].
    apply Hboot. intros [] [|]; simpl in *; congruence.
  - destruct (ensureBootstrapped_create s Hhas) as (-> & _).
    rewrite List.existsb_app. cbn [existsb isFunc orb].
    rewrite Hshown by (intros [] [|]; simpl in *; congruence).
    split; [reflexivity|]. split; [congruence | discriminate].
  - rewrite Hcheck. cbn [calls throw existsb].
    split; [reflexivity|]. split; [reflexivity | discriminate].
  - rewrite Hcheck. cbn [calls await existsb].
    split; [reflexivity|]. split; [reflexivity | discriminate].
Qed.

(** A bootstrap that never uploads shows access dialogs only. *)
Lemma run_bootstrapOptions_neverUploads {R}
    (t : Ext World (BootstrapE MakeRequest) R) (s : State) :
  neverUploads t →
  Forall (λ c, isAccessDialog c = true) (calls (run bootstrapOptions t s)).
Proof.
  revert s. induction t as [o | upd k IH | X e k IH]; intros s Hquiet.
  - constructor.
  - simpl. apply IH, Hquiet.
  - destruct (run_Vis bootstrapOptions e k s) as (_ & _ & ->).
    destruct Hquiet as [Hhere Hrest]. apply Forall_app. split.
    + destruct e as [req | makeRequest]; [|contradiction].
      apply forallb_Forall_true, getSecretStorageKey_calls.
    + apply IH, Hrest.
Qed.


(** C2. A request with more than one entry fails with the multi-key error;
    no collaborator is called and the state is left as it was. *)
Theorem getSecretStorageKey_multiple_keys (req : KeyRequest) (s : State) :
  1 < length (keys req) →
  getSecretStorageKey req s =
    {| outcome := Thrown UnsupportedMultiKeyRequest;
       final := s;
       calls := [] |}.
Proof.
  intros Hlen. unfold getSecretStorageKey.
  rewrite bool_decide_eq_true_2 by exact Hlen. reflexivity.
Qed.

(** C10. A request with no entry passes the more-than-one check and fails
    with a type error at the destructuring of the missing first entry: no
    key is returned, no collaborator is called, the state is left as it was,
    and the error is none of the four the module throws itself. *)
Theorem getSecretStorageKey_no_keys (req : KeyRequest) (s : State) :
  keys req = [] →
  getSecretStorageKey req s =
    {| outcome := Thrown TypeError; final := s; calls := [] |}
  ∧ TypeError ≠ UnsupportedMultiKeyRequest
  ∧ TypeError ≠ SecretStorageAccessCanceled
  ∧ TypeError ≠ SecretStorageCreationCanceled
  ∧ TypeError ≠ CrossSigningUploadAuthCanceled.
Proof.
  intros Hkeys. unfold getSecretStorageKey. rewrite Hkeys. simpl.
  repeat split; discriminate.
Qed.

(** C3. A request with one entry and no cache hit, for which the access
    dialog gives no input, fails with the access-canceled error and caches
    nothing.  Every invocation of [accessSecretStorage] whose operation makes
    this request leaves [cachingAllowed] false when it ends; and when the
    operation makes it first, in this state, and lets the failure through,
    the whole invocation fails with that error. *)
Theorem getSecretStorageKey_access_canceled name info (s : State) :
  cacheLookup name s = None →
  outcome (accessDialogFinished info s) = Returned None →
  let req := {| keys := [(name, info)] |} in
  outcome (getSecretStorageKey req s) = Thrown SecretStorageAccessCanceled
  ∧ secretStorageKeys (final (getSecretStorageKey req s)) = secretStorageKeys s
  ∧ (∀ R (k : Outcome (string * Value) → Ext World ClientE R) (s0 : State),
       let enclosing :=
         accessSecretStorage (Vis (GetSecretStorageKey req) k) s0 in
       settled (outcome enclosing) = true →
       cachingAllowed (final enclosing) = false)
  ∧ (∀ R (k : Outcome (string * Value) → Ext World ClientE R) (s0 : State),
       let enclosing :=
         accessSecretStorage (Vis (GetSecretStorageKey req) k) s0 in
       outcome (ensureBootstrapped (setCachingAllowed true s0)) = Returned tt →
       final (ensureBootstrapped (setCachingAllowed true s0)) = s →
       k (Thrown SecretStorageAccessCanceled)
         = Settle (Thrown SecretStorageAccessCanceled) →
       outcome enclosing = Thrown SecretStorageAccessCanceled
       ∧ cachingAllowed (final enclosing) = false
       ∧ secretStorageKeys (final enclosing) = ∅).
Proof.
  intros Hmiss Hnone req.
  destruct (getSecretStorageKey_miss name info s Hmiss) as (_ & _ & _ & Hrest).
  cbv zeta in Hrest. rewrite Hnone in Hrest. destruct Hrest as [Hout Hkeys].
  fold req in Hout, Hkeys.
  split; [exact Hout|]. split; [exact Hkeys|]. split.
  - intros R k s0 enclosing Hsettled.
    apply (accessSecretStorage_settled _ _ Hsettled).
  - intros R k s0 enclosing Hboot Hs Hk. subst enclosing.
    set (func := Vis (GetSecretStorageKey req) k).
    destruct (accessSecretStorage_result func s0) as (_ & Hend & _).
    pose proof (bootstrapThenRun_result func (setCachingAllowed true s0))
      as Hbody.
    cbv zeta in Hend, Hbody. rewrite Hboot, Hs in Hbody.
    destruct Hbody as (_ & _ & Hbody).
    destruct (run_Vis crossSigningCallbacks (GetSecretStorageKey req) k s)
      as (Hop & _).
    cbv zeta in Hop. fold func in Hop. rewrite Hop in Hbody.
    change (crossSigningCallbacks _ (GetSecretStorageKey req) s)
      with (getSecretStorageKey req s) in Hbody.
    rewrite Hout, Hk in Hbody. simpl in Hbody.
    rewrite Hbody in Hend. destruct (Hend eq_refl) as (-> & -> & ->). auto.
Qed.

(** C4, as the code has it.  With the gate open, once a request for [name]
    has returned, what it returned stays the answer through whatever the
    storage subsystem and other holders of the callbacks do next while the
    gate stays open; none of that shows an access dialog for [name], and
    every later request for [name] returns the same value, shows no dialog
    and changes nothing.  The resolution itself shows at most one dialog.
    So from a successful resolution on the user is not asked again for
    that name; nothing is said of the attempts before it. *)
Theorem getSecretStorageKey_cached_after_resolution
    name info n value (s : State) :
  cachingAllowed s = true →
  outcome (getSecretStorageKey {| keys := [(name, info)] |} s)
    = Returned (n, value) →
  let first := getSecretStorageKey {| keys := [(name, info)] |} s in
  n = name
  ∧ (length (calls first) ≤ 1)%nat
  ∧ ∀ R1 R2 (subsystem : Ext World (BootstrapE MakeRequest) R1)
      (client : Ext World ClientE R2),
      let next1 := run bootstrapOptions subsystem (final first) in
      let next2 := run crossSigningCallbacks client (final next1) in
      existsb (isAccessDialogFor name) (calls next1) = false
      ∧ existsb (isAccessDialogFor name) (calls next2) = false
      ∧ ∀ info',
          getSecretStorageKey {| keys := [(name, info')] |} (final next2) =
            {| outcome := Returned (name, value);
               final := final next2;
               calls := [] |}.
Proof.
  intros Hgate Hout first.
  assert (n = name ∧ (length (calls first) ≤ 1)%nat
          ∧ cached name value (final first))
    as (Hn & Hlen & Hcached).
  { subst first. unfold cached.
    destruct (cacheLookup name s) as [value0|] eqn:Hlookup.
    - rewrite (getSecretStorageKey_hit _ _ _ _ Hlookup) in *.
      simpl in *. injection Hout as <- <-.
      split; [reflexivity|]. split; [lia | exact Hlookup].
    - destruct (getSecretStorageKey_miss name info s Hlookup)
        as (Hcalls & Hgate' & _ & Hrest).
      cbv zeta in Hcalls, Hgate', Hrest. rewrite Hcalls. cbn [length].
      destruct (outcome (accessDialogFinished info s)) as [[input|]|e|];
        try (destruct Hrest as [Hout' _]; congruence).
      destruct (inputToKey info input) as [key1|e|];
        try (destruct Hrest as [Hout' _]; congruence).
      destruct Hrest as [Hout' Hkeys]. rewrite Hout' in Hout.
      injection Hout as <- <-. rewrite Hgate in Hkeys.
      split; [reflexivity|]. split; [lia|].
      unfold cacheLookup, getProperty. rewrite Hgate', Hgate, Hkeys.
      rewrite lookup_insert_eq. reflexivity. }
  split; [exact Hn|]. split; [exact Hlen|].
  intros R1 R2 subsystem client next1 next2.
  destruct (run_bootstrapOptions_cached name value subsystem _ Hcached)
    as [Hcached1 Hcalls1].
  fold next1 in Hcached1, Hcalls1.
  destruct (run_crossSigningCallbacks_cached name value client _ Hcached1)
    as [Hcached2 Hcalls2].
  fold next2 in Hcached2, Hcalls2.
  split; [|split].
  - eapply Forall_existsb_false; [|exact Hcalls1]. auto.
  - eapply Forall_existsb_false; [|exact Hcalls2]. auto.
  - intros info'. apply getSecretStorageKey_hit. exact Hcached2.
Qed.



(** C7, as the code has it.  One mode is used per attempt: a [passphrase]
    that is present and not empty is derived with the salt and iterations
    of the description (which must carry them); a [passphrase] that is
    missing or empty sends [recoveryKey], present or not, to the decoder. *)
Theorem inputToKey_mode (info : KeyInfo) (input : Input) :
  (∀ p pp,
     input_passphrase input = Some p → p ≠ "" →
     passphrase info = Some pp →
     inputToKey info input = deriveKey p (salt pp) (iterations pp))
  ∧ (input_passphrase input = None ∨ input_passphrase input = Some "" →
     inputToKey info input = decodeRecoveryKey (input_recoveryKey input)).
Proof.
  unfold inputToKey. split.
  - intros p pp -> Hp ->. destruct p; [contradiction|reflexivity].
  - intros [-> | ->]; reflexivity.
Qed.


(** C9. With the gate closed the cache check finds nothing, whatever
    [secretStorageKeys] holds; a request then shows the dialog, and when
    that gives a key the request returns it without an error and leaves
    [secretStorageKeys] and the gate as they were. *)
Theorem getSecretStorageKey_gate_closed name info input key (s : State) :
  cachingAllowed s = false →
  outcome (accessDialogFinished info s) = Returned (Some input) →
  inputToKey info input = Returned key →
  let r := getSecretStorageKey {| keys := [(name, info)] |} s in
  cacheLookup name s = None
  ∧ calls r = [AccessSecretStorageDialog name (Returned (Some input))]
  ∧ outcome r = Returned (name, KeyValue key)
  ∧ secretStorageKeys (final r) = secretStorageKeys s
  ∧ cachingAllowed (final r) = false.
Proof.
  intros Hgate Hshown Hkey r. subst r.
  assert (cacheLookup name s = None) as Hmiss
    by (unfold cacheLookup; rewrite Hgate; reflexivity).
  destruct (getSecretStorageKey_miss name info s Hmiss)
    as (Hcalls & Hgate' & _ & Hrest).
  cbv zeta in Hcalls, Hgate', Hrest.
  rewrite Hshown in Hcalls, Hrest. rewrite Hkey, Hgate in Hrest.
  destruct Hrest as [Hout Hkeys]. rewrite Hgate', Hgate. auto.
Qed.

(** ** Further properties of the two functions *)

(** X1. Whatever the request and however it ends, [getSecretStorageKey]
    leaves [cachingAllowed] as it was; with the gate closed it leaves
    [secretStorageKeys] as it was; and it never touches the entry of a name
    other than the single name it was asked for. *)
Theorem getSecretStorageKey_frame (req : KeyRequest) (s : State) :
  cachingAllowed (final (getSecretStorageKey req s)) = cachingAllowed s
  ∧ (cachingAllowed s = false →
     secretStorageKeys (final (getSecretStorageKey req s))
     = secretStorageKeys s)
  ∧ (∀ name', (∀ info, keys req ≠ [(name', info)]) →
     secretStorageKeys (final (getSecretStorageKey req s)) !! name'
     = secretStorageKeys s !! name').
Proof.
  destruct (getSecretStorageKey_keys req s) as (Hclosed & _ & Hother & _).
  split; [apply getSecretStorageKey_gate|]. split; assumption.
Qed.

(** X2. One request opens at most one dialog, and that dialog is the access
    dialog: a request never opens the creation dialog or the
    interactive-auth dialog and never calls [bootstrapSecretStorage] or an
    operation. *)
Theorem getSecretStorageKey_one_dialog (req : KeyRequest) (s : State) :
  (length (calls (getSecretStorageKey req s)) ≤ 1)%nat
  ∧ forallb isAccessDialog (calls (getSecretStorageKey req s)) = true.
Proof.
  destruct (getSecretStorageKey_keys req s) as (_ & _ & _ & Hlen).
  split; [exact Hlen | apply getSecretStorageKey_calls].
Qed.

(** X3. A request that returns a key had exactly one entry, and the name
    returned is the name of that entry. *)
Theorem getSecretStorageKey_returned_single
    (req : KeyRequest) n key (s : State) :
  outcome (getSecretStorageKey req s) = Returned (n, key) →
  ∃ info, keys req = [(n, info)].
Proof.
  request_cases req s; try discriminate.
  destruct (cacheLookup name s) as [key0|] eqn:Hlookup.
  - rewrite (getSecretStorageKey_hit _ _ _ _ Hlookup).
    cbn [outcome]. intros [= <- <-]. eauto.
  - destruct (getSecretStorageKey_miss name info s Hlookup)
      as (_ & _ & _ & Hrest).
    cbv zeta in Hrest.
    destruct (outcome (accessDialogFinished info s)) as [[input|]|e|];
      try (destruct Hrest as [-> _]; discriminate).
    destruct (inputToKey info input) as [key1|e|];
      try (destruct Hrest as [-> _]; discriminate).
    destruct Hrest as [-> _]. intros [= <- <-]. eauto.
Qed.

(** X4. When the dialog hands back an input from which no key can be
    derived ([deriveKey] or [decodeRecoveryKey] throws, or the description
    has no passphrase parameters), the request fails with that very error
    after the one dialog, and nothing is cached. *)
Theorem getSecretStorageKey_derivation_fails
    name info input e (s : State) :
  cacheLookup name s = None →
  outcome (accessDialogFinished info s) = Returned (Some input) →
  inputToKey info input = Thrown e →
  let r := getSecretStorageKey {| keys := [(name, info)] |} s in
  outcome r = Thrown e
  ∧ calls r = [AccessSecretStorageDialog name (Returned (Some input))]
  ∧ secretStorageKeys (final r) = secretStorageKeys s
  ∧ cachingAllowed (final r) = cachingAllowed s.
Proof.
  intros Hmiss Hshown Hkey r. subst r.
  destruct (getSecretStorageKey_miss name info s Hmiss)
    as (Hcalls & Hgate & _ & Hrest).
  cbv zeta in Hcalls, Hgate, Hrest.
  rewrite Hshown in Hcalls, Hrest. rewrite Hkey in Hrest.
  destruct Hrest as [Hout Hkeys]. auto.
Qed.

(** X5. A request that does not return a key, for whatever reason (several
    entries, none, the dialog closed, failed or never closed, no key
    derived), leaves [secretStorageKeys] as it was. *)
Theorem getSecretStorageKey_failure_keeps_cache
    (req : KeyRequest) (s : State) :
  (∀ v, outcome (getSecretStorageKey req s) ≠ Returned v) →
  secretStorageKeys (final (getSecretStorageKey req s)) = secretStorageKeys s.
Proof.
  intros Hfailed.
  destruct (getSecretStorageKey_keys req s) as (_ & Hkeeps & _).
  exact (Hkeeps Hfailed).
Qed.

(** X7. Once the bootstrap has completed, the invocation ends exactly as the
    operation ends: it returns what the operation returns, throws what it
    throws, and never settles when it never settles.  The operation is
    called once, after everything the bootstrap called. *)
Theorem accessSecretStorage_operation_outcome
    {R} (func : Ext World ClientE R) (s : State) :
  outcome (ensureBootstrapped (setCachingAllowed true s)) = Returned tt →
  let b := ensureBootstrapped (setCachingAllowed true s) in
  let op := run crossSigningCallbacks func (final b) in
  outcome (accessSecretStorage func s) = outcome op
  ∧ calls (accessSecretStorage func s) = (calls b ++ Func :: calls op)%list
  ∧ existsb isFunc (calls b) = false
  ∧ existsb isFunc (calls op) = false.
Proof.
  intros Hb b op.
  destruct (accessSecretStorage_result func s) as (Hcalls & Hend & Hhang).
  pose proof (bootstrapThenRun_result func (setCachingAllowed true s))
    as Hbody.
  cbv zeta in Hcalls, Hend, Hhang, Hbody. rewrite Hb in Hbody.
  destruct Hbody as (Hc & _ & Hout). fold b in Hc. fold b op in Hout.
  split; [|split; [|split]].
  - destruct (outcome op) as [v|e|] eqn:Hop.
    + rewrite Hout in Hend. destruct (Hend eq_refl) as (-> & _). reflexivity.
    + rewrite Hout in Hend. destruct (Hend eq_refl) as (-> & _). reflexivity.
    + rewrite (Hhang Hout). exact Hout.
  - rewrite Hcalls. exact Hc.
  - apply ensureBootstrapped_calls.
  - eapply Forall_existsb_false; [|apply run_crossSigningCallbacks_calls].
    intros []; simpl; congruence.
Qed.

(** X8. When the bootstrap fails, whatever the error and whichever path
    raised it, the invocation fails with that error, the operation is never
    called, and the cache is left disabled and empty. *)
Theorem accessSecretStorage_bootstrap_fails
    {R} (func : Ext World ClientE R) e (s : State) :
  outcome (ensureBootstrapped (setCachingAllowed true s)) = Thrown e →
  outcome (accessSecretStorage func s) = Thrown e
  ∧ existsb isFunc (calls (accessSecretStorage func s)) = false
  ∧ cachingAllowed (final (accessSecretStorage func s)) = false
  ∧ secretStorageKeys (final (accessSecretStorage func s)) = ∅.
Proof.
  intros Hb.
  destruct (accessSecretStorage_result func s) as (Hcalls & Hend & _).
  pose proof (bootstrapThenRun_result func (setCachingAllowed true s))
    as Hbody.
  cbv zeta in Hcalls, Hend, Hbody. rewrite Hb in Hbody.
  destruct Hbody as (Hc & _ & Hout).
  rewrite Hout in Hend. destruct (Hend eq_refl) as (-> & -> & ->).
  rewrite Hcalls, Hc.
  split; [reflexivity|]. split; [apply ensureBootstrapped_calls | auto].
Qed.

(** X9. Called without an operation, [accessSecretStorage] ends exactly as
    the bootstrap ends. *)
Theorem accessSecretStorage_no_operation (s : State) :
  outcome (accessSecretStorage noOperation s)
  = outcome (ensureBootstrapped (setCachingAllowed true s)).
Proof.
  destruct (accessSecretStorage_result noOperation s) as (_ & Hend & Hhang).
  pose proof (bootstrapThenRun_result noOperation (setCachingAllowed true s))
    as Hbody.
  cbv zeta in Hend, Hhang, Hbody.
  destruct (outcome (ensureBootstrapped (setCachingAllowed true s)))
    as [[]|e|]; destruct Hbody as (_ & _ & Hout).
  - rewrite Hout in Hend. destruct (Hend eq_refl) as (-> & _). reflexivity.
  - rewrite Hout in Hend. destruct (Hend eq_refl) as (-> & _). reflexivity.
  - rewrite (Hhang Hout). exact Hout.
Qed.

(** X10. When [hasSecretStorageKey()] is true the creation dialog is never
    shown, and [accessSecretStorage] calls [bootstrapSecretStorage] once,
    before any dialog is opened and before the operation is called. *)
Theorem accessSecretStorage_access_path
    {R} (func : Ext World ClientE R) (s : State) :
  hasSecretStorageKey (world s) = Returned true →
  existsb isCreateDialog (calls (accessSecretStorage func s)) = false
  ∧ ∃ rest,
      calls (accessSecretStorage func s) = BootstrapSecretStorage :: rest
      ∧ existsb isBootstrap rest = false.
Proof.
  intros Hhas.
  destruct (accessSecretStorage_result func s) as (Hcalls & _).
  pose proof (bootstrapThenRun_result func (setCachingAllowed true s))
    as Hbody.
  destruct (ensureBootstrapped_calls (setCachingAllowed true s))
    as (_ & Hcreate & Hfirst).
  destruct (Hfirst Hhas) as (rest & Hb & Hrest).
  specialize (Hcreate ltac:(simpl; congruence)).
  cbv zeta in Hcalls, Hbody. rewrite Hcalls. clear Hcalls.
  set (b := ensureBootstrapped (setCachingAllowed true s)) in *.
  set (op := run crossSigningCallbacks func (final b)) in *.
  assert (∀ p : Call → bool,
            (∀ c, isAccessDialog c = true → p c = false) →
            existsb p (calls op) = false) as Hop.
  { intros p Hp. eapply Forall_existsb_false; [exact Hp|].
    apply run_crossSigningCallbacks_calls. }
  destruct (outcome b) as [[]|e|]; destruct Hbody as (-> & _).
  - rewrite List.existsb_app, Hcreate. cbn [existsb isCreateDialog orb].
    rewrite Hop by (intros []; simpl; congruence).
    split; [reflexivity|]. rewrite Hb.
    exists (rest ++ Func :: calls op)%list. split; [reflexivity|].
    rewrite List.existsb_app, Hrest. cbn [existsb isBootstrap orb].
    apply Hop. intros []; simpl; congruence.
  - split; [exact Hcreate | eauto].
  - split; [exact Hcreate | eauto].
Qed.

(** X11. With a subsystem that has nothing to upload, no interactive-auth
    dialog is ever shown, whichever path is taken. *)
Theorem accessSecretStorage_no_upload_no_auth
    {R} (func : Ext World ClientE R) (s : State) :
  neverUploads bootstrapSecretStorage →
  existsb isAuthDialog (calls (accessSecretStorage func s)) = false.
Proof.
  intros Hquiet.
  destruct (accessSecretStorage_result func s) as (Hcalls & _).
  pose proof (bootstrapThenRun_result func (setCachingAllowed true s))
    as Hbody.
  pose proof (ensureBootstrapped_check (setCachingAllowed true s)) as Hcheck.
  cbv zeta in Hcalls, Hbody. rewrite Hcalls. clear Hcalls.
  set (s1 := setCachingAllowed true s) in *.
  assert (existsb isAuthDialog (calls (ensureBootstrapped s1)) = false)
    as Hb.
  { destruct (hasSecretStorageKey (world s1)) as [[|]|e|] eqn:Hhas.
    - destruct (ensureBootstrapped_access s1 Hhas) as (-> & _).
      cbn [existsb isAuthDialog orb].
      eapply Forall_existsb_false;
        [|apply (run_bootstrapOptions_neverUploads _ s1 Hquiet)].
      intros []; simpl; congruence.
    - destruct (ensureBootstrapped_create s1 Hhas) as (-> & _).
      rewrite List.existsb_app. cbn [existsb isAuthDialog orb].
      rewrite orb_false_r.
      eapply Forall_existsb_false; [|apply run_createDialogProps_calls].
      intros [] [|]; simpl in *; congruence.
    - rewrite Hcheck. reflexivity.
    - rewrite Hcheck. reflexivity. }
  set (b := ensureBootstrapped s1) in *.
  destruct (outcome b) as [[]|e|]; destruct Hbody as (-> & _);
    try exact Hb.
  rewrite List.existsb_app, Hb. cbn [existsb isAuthDialog orb].
  eapply Forall_existsb_false; [|apply run_crossSigningCallbacks_calls].
  intros []; simpl; congruence.
Qed.

(** X12. When [cli.hasSecretStorageKey()] itself throws, the invocation
    fails with that error without calling any collaborator, and the cache
    is left disabled and empty. *)
Theorem accessSecretStorage_check_throws
    {R} (func : Ext World ClientE R) e (s : State) :
  hasSecretStorageKey (world s) = Thrown e →
  outcome (accessSecretStorage func s) = Thrown e
  ∧ calls (accessSecretStorage func s) = []
  ∧ cachingAllowed (final (accessSecretStorage func s)) = false
  ∧ secretStorageKeys (final (accessSecretStorage func s)) = ∅.
Proof.
  intros Hhas.
  destruct (accessSecretStorage_result func s) as (Hcalls & Hend & _).
  pose proof (bootstrapThenRun_result func (setCachingAllowed true s))
    as Hbody.
  pose proof (ensureBootstrapped_check (setCachingAllowed true s)) as Hcheck.
  cbv zeta in Hcalls, Hend, Hbody.
  change (world (setCachingAllowed true s)) with (world s) in Hcheck.
  rewrite Hhas in Hcheck. rewrite Hcheck in Hbody.
  cbn [outcome calls throw] in Hbody. destruct Hbody as (Hc & _ & Hout).
  rewrite Hout in Hend. destruct (Hend eq_refl) as (-> & -> & ->).
  rewrite Hcalls, Hc. auto.
Qed.

(** X13. An invocation that never settles (a dialog is never closed, the
    operation hangs) never runs its [finally] block: the gate is left
    open. *)
Theorem accessSecretStorage_pending_gate_open
    {R} (func : Ext World ClientE R) (s : State) :
  outcome (accessSecretStorage func s) = Pending →
  cachingAllowed (final (accessSecretStorage func s)) = true.
Proof.
  intros Hpending.
  destruct (accessSecretStorage_result func s) as (_ & Hend & Hhang).
  cbv zeta in Hend, Hhang.
  destruct (outcome (bootstrapThenRun func (setCachingAllowed true s)))
    as [v|e|] eqn:Hbody.
  - destruct (Hend eq_refl) as (Hout & _). congruence.
  - destruct (Hend eq_refl) as (Hout & _). congruence.
  - rewrite (Hhang eq_refl). apply bootstrapThenRun_gate.
Qed.

(** X14. From the module as loaded, whatever is done with it, in whatever
    order (key requests, invocations of [accessSecretStorage] that end or
    hang, anything else in between), a closed gate means an empty cache: no
    entry is ever left behind a closed gate. *)
Theorem closed_gate_empty_cache (uses : list Use) (w : World) :
  cachingAllowed (fold_left useModule uses (moduleLoaded w)) = false →
  secretStorageKeys (fold_left useModule uses (moduleLoaded w)) = ∅.
Proof.
  assert (∀ s, (cachingAllowed s = false → secretStorageKeys s = ∅) →
               cachingAllowed (fold_left useModule uses s) = false →
               secretStorageKeys (fold_left useModule uses s) = ∅) as Hinv.
  { induction uses as [|u uses IH]; intros s Hs; [exact Hs|].
    cbn [fold_left]. apply IH.
    destruct u as [req | R func | upd]; cbn [useModule].
    - rewrite getSecretStorageKey_gate. intros Hclosed.
      destruct (getSecretStorageKey_keys req s) as (-> & _); auto.
    - destruct (outcome (accessSecretStorage func s)) as [v|e|] eqn:Hout.
      + intros _. apply accessSecretStorage_settled. rewrite Hout.
        reflexivity.
      + intros _. apply accessSecretStorage_settled. rewrite Hout.
        reflexivity.
      + destruct (accessSecretStorage_result func s) as (_ & Hend & Hhang).
        cbv zeta in Hend, Hhang.
        destruct (outcome (bootstrapThenRun func (setCachingAllowed true s)))
          as [v|e|] eqn:Hbody;
          try (destruct (Hend eq_refl) as (Hout' & _); congruence).
        rewrite (Hhang eq_refl), bootstrapThenRun_gate. discriminate.
    - exact Hs. }
  apply Hinv. reflexivity.
Qed.

(** X15. A key the bootstrap left in the cache is not asked for again by
    an operation that reaches the module only through [getSecretStorageKey]
    (one that does not call [accessSecretStorage] again from inside): such
    an operation shows no access dialog for the key's name, whatever
    requests it makes, and when it starts by requesting that name it gets
    the cached key. *)
Theorem accessSecretStorage_operation_not_prompted
    {R} (func : Ext World ClientE R) name key (s : State) :
  outcome (ensureBootstrapped (setCachingAllowed true s)) = Returned tt →
  secretStorageKeys (final (ensureBootstrapped (setCachingAllowed true s)))
    !! name = Some key →
  existsb (isAccessDialogFor name)
    (calls
       (run crossSigningCallbacks func
          (final (ensureBootstrapped (setCachingAllowed true s))))) = false
  ∧ ∀ info (k : Outcome (string * Value) → Ext World ClientE R),
      outcome
        (accessSecretStorage
           (Vis (GetSecretStorageKey {| keys := [(name, info)] |}) k) s)
      = outcome
          (run crossSigningCallbacks (k (Returned (name, KeyValue key)))
             (final (ensureBootstrapped (setCachingAllowed true s)))).
Proof.
  intros Hb Hentry.
  set (b := ensureBootstrapped (setCachingAllowed true s)) in *.
  assert (cached name (KeyValue key) (final b)) as Hcached.
  { unfold cached, cacheLookup, getProperty. subst b.
    rewrite ensureBootstrapped_gate. cbn [cachingAllowed setCachingAllowed].
    rewrite Hentry. reflexivity. }
  split.
  - eapply Forall_existsb_false;
      [|apply (run_crossSigningCallbacks_cached name (KeyValue key) func _
                 Hcached)].
    auto.
  - intros info k.
    set (func' := Vis (GetSecretStorageKey {| keys := [(name, info)] |}) k).
    destruct (accessSecretStorage_result func' s) as (_ & Hend & Hhang).
    pose proof (bootstrapThenRun_result func' (setCachingAllowed true s))
      as Hbody.
    cbv zeta in Hend, Hhang, Hbody. fold b in Hbody. rewrite Hb in Hbody.
    destruct Hbody as (_ & _ & Hout).
    destruct (run_Vis crossSigningCallbacks
                (GetSecretStorageKey {| keys := [(name, info)] |}) k (final b))
      as (Hop & _).
    cbv zeta in Hop. fold func' in Hop. rewrite Hop in Hout. clear Hop.
    change (crossSigningCallbacks _
              (GetSecretStorageKey {| keys := [(name, info)] |}) (final b))
      with (getSecretStorageKey {| keys := [(name, info)] |} (final b))
      in Hout.
    rewrite (getSecretStorageKey_hit name info (KeyValue key) (final b)
               Hcached) in Hout.
    cbn [outcome final] in Hout.
    destruct (outcome (bootstrapThenRun func' (setCachingAllowed true s)))
      as [v|e|] eqn:Hbody.
    + destruct (Hend eq_refl) as (-> & _). exact Hout.
    + destruct (Hend eq_refl) as (-> & _). exact Hout.
    + rewrite (Hhang eq_refl), Hbody. exact Hout.
Qed.

(** X16. No key outlives the invocation that resolved it: after an
    invocation has ended, a request for any name shows the access dialog
    again. *)
Theorem getSecretStorageKey_prompts_after_scope
    {R} (func : Ext World ClientE R) name info (s : State) :
  settled (outcome (accessSecretStorage func s)) = true →
  calls
    (getSecretStorageKey {| keys := [(name, info)] |}
       (final (accessSecretStorage func s)))
  = [AccessSecretStorageDialog name
       (outcome
          (accessDialogFinished info (final (accessSecretStorage func s))))].
Proof.
  intros Hsettled.
  destruct (accessSecretStorage_settled func s Hsettled) as [Hgate _].
  apply getSecretStorageKey_miss.
  unfold cacheLookup. rewrite Hgate. reflexivity.
Qed.

(** X17. For a name that [Object.prototype] defines, the cache check with
    the gate open is never empty: when nothing is stored under the name the
    request returns the inherited property, shows no dialog and changes
    nothing.  Whatever the gate, a request for such a name never writes
    [secretStorageKeys]. *)
Theorem getSecretStorageKey_inherited_name name info (s : State) :
  inheritedName name = true →
  secretStorageKeys
    (final (getSecretStorageKey {| keys := [(name, info)] |} s))
  = secretStorageKeys s
  ∧ (cachingAllowed s = true →
     secretStorageKeys s !! name = None →
     getSecretStorageKey {| keys := [(name, info)] |} s =
       {| outcome := Returned (name, Inherited name);
          final := s;
          calls := [] |}).
Proof.
  intros Hinherited.
  assert (cachingAllowed s = true →
          ∃ value, cacheLookup name s = Some value
                   ∧ (secretStorageKeys s !! name = None →
                      value = Inherited name)) as Hhit.
  { intros Hgate. unfold cacheLookup, getProperty. rewrite Hgate.
    destruct (secretStorageKeys s !! name) as [key|].
    - eexists. split; [reflexivity | discriminate].
    - rewrite Hinherited. eauto. }
  split.
  - destruct (cachingAllowed s) eqn:Hgate.
    + destruct (Hhit eq_refl) as (value & Hlookup & _).
      rewrite (getSecretStorageKey_hit _ _ _ _ Hlookup). reflexivity.
    + exact (proj1 (getSecretStorageKey_keys _ s) Hgate).
  - intros Hgate Hnone. destruct (Hhit Hgate) as (value & Hlookup & Hvalue).
    rewrite (getSecretStorageKey_hit _ _ _ _ Hlookup).
    rewrite (Hvalue Hnone). reflexivity.
Qed.

End Properties.

(** ** The properties on the scripted client *)


Lemma getSecretStorageKey_multiple_keys_witness :
  1 < length (keys twoKeyRequest)
  ∧ getSecretStorageKey (H := scripted) twoKeyRequest (openState exampleScript)
    = {| outcome := Thrown UnsupportedMultiKeyRequest;
         final := openState exampleScript;
         calls := [] |}.
Proof.
  assert (1 < length (keys twoKeyRequest)) as Hlen by (simpl; lia).
  split; [exact Hlen|].
  exact (getSecretStorageKey_multiple_keys (H := scripted) twoKeyRequest
           (openState exampleScript) Hlen).
Defined.

Lemma getSecretStorageKey_no_keys_witness :
  outcome
    (getSecretStorageKey (H := scripted) {| keys := [] |}
       (openState exampleScript)) = Thrown TypeError.
Proof.
  rewrite (proj1 (getSecretStorageKey_no_keys (H := scripted) {| keys := [] |}
                    (openState exampleScript) eq_refl)).
  reflexivity.
Defined.

Lemma getSecretStorageKey_access_canceled_witness :
  outcome
    (getSecretStorageKey (H := scripted) exampleRequest
       (openState closingScript)) = Thrown SecretStorageAccessCanceled
  ∧ outcome
      (accessSecretStorage (H := scripted) exampleOperation
         (initialState closingScript)) = Thrown SecretStorageAccessCanceled.
Proof.
  assert (cacheLookup (H := scripted) "key1" (openState closingScript) = None)
    as Hmiss by (vm_compute; reflexivity).
  assert (outcome
            (accessDialogFinished (H := scripted) exampleInfo
               (openState closingScript)) = Returned None)
    as Hnone by (vm_compute; reflexivity).
  destruct (getSecretStorageKey_access_canceled (H := scripted)
              "key1" exampleInfo (openState closingScript) Hmiss Hnone)
    as (Hout & _ & _ & Hwhole).
  split; [exact Hout|].
  apply (Hwhole _ Settle (initialState closingScript));
    vm_compute; reflexivity.
Defined.

Lemma getSecretStorageKey_cached_after_resolution_witness :
  getSecretStorageKey (H := scripted) exampleRequest
    (final
       (getSecretStorageKey (H := scripted) exampleRequest
          (openState exampleScript)))
  = {| outcome := Returned ("key1", KeyValue exampleKey);
       final :=
         final
           (getSecretStorageKey (H := scripted) exampleRequest
              (openState exampleScript));
       calls := [] |}.
Proof.
  assert (cachingAllowed (H := scripted) (openState exampleScript) = true)
    as Hgate by reflexivity.
  assert (outcome
            (getSecretStorageKey (H := scripted) exampleRequest
               (openState exampleScript))
          = Returned ("key1", KeyValue exampleKey))
    as Hout by (vm_compute; reflexivity).
  destruct (getSecretStorageKey_cached_after_resolution (H := scripted)
              "key1" exampleInfo "key1" (KeyValue exampleKey)
              (openState exampleScript) Hgate Hout)
    as (_ & _ & Hnext).
  exact (proj2 (proj2 (Hnext unit unit (Settle (Returned tt))
                         (Settle (Returned tt)))) exampleInfo).
Defined.

(** C4 as stated fails when the first attempt is cancelled: nothing is
    cached, and the retry in the same scope, with the gate open all along,
    asks the user a second time for the same name. *)
Lemma getSecretStorageKey_prompted_twice :
  outcome
    (accessSecretStorage (H := queuedClient) retryingOperation
       (@Build_State queuedClient ∅ false [None; Some passphraseInput]))
  = Returned ("key1", KeyValue exampleKey)
  ∧ List.filter (isAccessDialogFor "key1")
      (calls
         (accessSecretStorage (H := queuedClient) retryingOperation
            (@Build_State queuedClient ∅ false [None; Some passphraseInput])))
    = [AccessSecretStorageDialog "key1" (Returned None);
       AccessSecretStorageDialog "key1" (Returned (Some passphraseInput))].
Proof. vm_compute. split; reflexivity. Qed.





(** C7 as stated fails when the passphrase is present and empty: the code
    tests its truthiness, so the decoder is called instead, on the missing
    [recoveryKey]. *)
Lemma inputToKey_empty_passphrase :
  input_passphrase emptyPassphraseInput = Some ""
  ∧ passphrase exampleInfo = Some {| salt := "NaCl"; iterations := 500000 |}
  ∧ inputToKey (H := scripted) exampleInfo emptyPassphraseInput
    = decodeRecoveryKey (Collaborators := scripted) None
  ∧ inputToKey (H := scripted) exampleInfo emptyPassphraseInput
    ≠ deriveKey (Collaborators := scripted) "" "NaCl" 500000.
Proof.
  split; [reflexivity|]. split; [reflexivity|]. split; [reflexivity|].
  vm_compute. discriminate.
Qed.

Lemma inputToKey_mode_witness :
  inputToKey (H := scripted) exampleInfo passphraseInput
  = deriveKey (Collaborators := scripted) "abcd" "NaCl" 500000
  ∧ inputToKey (H := scripted) exampleInfo emptyPassphraseInput
    = decodeRecoveryKey (Collaborators := scripted) None.
Proof.
  split.
  - apply (proj1 (inputToKey_mode (H := scripted) exampleInfo passphraseInput)
             "abcd" {| salt := "NaCl"; iterations := 500000 |});
      [reflexivity | discriminate | reflexivity].
  - apply (proj2 (inputToKey_mode (H := scripted) exampleInfo
                    emptyPassphraseInput)).
    right. reflexivity.
Defined.




Lemma getSecretStorageKey_gate_closed_witness :
  secretStorageKeys (staleState exampleScript) !! "key1" = Some []
  ∧ cacheLookup (H := scripted) "key1" (staleState exampleScript) = None
  ∧ outcome
      (getSecretStorageKey (H := scripted) exampleRequest
         (staleState exampleScript)) = Returned ("key1", KeyValue exampleKey)
  ∧ secretStorageKeys
      (final
         (getSecretStorageKey (H := scripted) exampleRequest
            (staleState exampleScript)))
    = secretStorageKeys (staleState exampleScript).
Proof.
  assert (cachingAllowed (staleState exampleScript) = false)
    as Hgate by reflexivity.
  assert (outcome
            (accessDialogFinished (H := scripted) exampleInfo
               (staleState exampleScript)) = Returned (Some passphraseInput))
    as Hshown by (vm_compute; reflexivity).
  assert (inputToKey (H := scripted) exampleInfo passphraseInput
          = Returned exampleKey) as Hkey by reflexivity.
  destruct (getSecretStorageKey_gate_closed (H := scripted)
              "key1" exampleInfo passphraseInput exampleKey
              (staleState exampleScript) Hgate Hshown Hkey)
    as (Hlookup & _ & Hout & Hkeys & _).
  split; [vm_compute; reflexivity|].
  split; [exact Hlookup|]. split; [exact Hout | exact Hkeys].
Defined.

(** ** The spec's end-to-end scenarios on the scripted client *)

(** No secret storage yet and the creation dialog is confirmed: the
    operation runs, its result is returned and the cache ends empty. *)
Example scenario_creation_confirmed :
  let w := {| script_hasKey := false;
              script_typed := Some passphraseInput;
              script_confirmsCreation := true;
              script_confirmsAuth := true |} in
  let r := accessSecretStorage (H := scripted) exampleOperation
             (initialState w) in
  outcome r = Returned ("key1", KeyValue exampleKey)
  ∧ calls r = [CreateSecretStorageDialog (Returned true); Func;
               AccessSecretStorageDialog "key1"
                 (Returned (Some passphraseInput))]
  ∧ final r = initialState w.
Proof. vm_compute. auto. Qed.

(** Secret storage exists, the bootstrap uploads cross-signing keys and the
    user confirms: the bootstrap completes and the operation runs. *)
Example scenario_upload_confirmed :
  let r := accessSecretStorage (H := scripted) exampleOperation
             (initialState exampleScript) in
  outcome r = Returned ("key1", KeyValue exampleKey)
  ∧ calls r = [BootstrapSecretStorage; InteractiveAuthDialog (Returned true);
               Func;
               AccessSecretStorageDialog "key1"
                 (Returned (Some passphraseInput))]
  ∧ final r = initialState exampleScript.
Proof. vm_compute. auto. Qed.

(** The same with the authentication declined. *)
Example scenario_upload_declined :
  let r := accessSecretStorage (H := scripted) exampleOperation
             (initialState decliningScript) in
  outcome r = Thrown CrossSigningUploadAuthCanceled
  ∧ calls r = [BootstrapSecretStorage; InteractiveAuthDialog (Returned false)]
  ∧ final r = initialState decliningScript.
Proof. vm_compute. auto. Qed.

(** Asking twice in one scope prompts once. *)
Example scenario_two_requests :
  let twice : Ext Script ClientE (string * Value) :=
    Vis (GetSecretStorageKey exampleRequest) (λ _,
      Vis (GetSecretStorageKey exampleRequest) Settle) in
  let r := accessSecretStorage (H := scripted) twice
             (initialState exampleScript) in
  outcome r = Returned ("key1", KeyValue exampleKey)
  ∧ length (List.filter (isAccessDialogFor "key1") (calls r)) = 1.
Proof. vm_compute. auto. Qed.

(** An operation that never settles: the invocation never ends, its
    [finally] block never runs and the gate stays open. *)
Example scenario_operation_hangs :
  let r := accessSecretStorage (H := scripted)
             (Settle Pending : Ext Script ClientE unit)
             (initialState exampleScript) in
  outcome r = Pending ∧ cachingAllowed (final r) = true.
Proof. vm_compute. auto. Qed.

(** ** The further properties on scripted clients *)

Lemma getSecretStorageKey_returned_single_witness :
  ∃ info, keys exampleRequest = [("key1", info)].
Proof.
  assert (outcome
            (getSecretStorageKey (H := scripted) exampleRequest
               (openState exampleScript))
          = Returned ("key1", KeyValue exampleKey))
    as Hout by (vm_compute; reflexivity).
  exact (getSecretStorageKey_returned_single (H := scripted) exampleRequest
           "key1" (KeyValue exampleKey) (openState exampleScript) Hout).
Defined.

Lemma getSecretStorageKey_derivation_fails_witness :
  outcome (getSecretStorageKey (H := trustingClient) recoveryOnlyRequest
             trustingState) = Thrown TypeError
  ∧ secretStorageKeys
      (final
         (getSecretStorageKey (H := trustingClient) recoveryOnlyRequest
            trustingState)) = secretStorageKeys trustingState.
Proof.
  assert (cacheLookup (H := trustingClient) "key1" trustingState = None)
    as Hmiss by (vm_compute; reflexivity).
  assert (outcome (accessDialogFinished (H := trustingClient)
                     recoveryOnlyInfo trustingState)
          = Returned (Some passphraseInput))
    as Hshown by (vm_compute; reflexivity).
  assert (inputToKey (H := trustingClient) recoveryOnlyInfo passphraseInput
          = Thrown TypeError) as Hkey by reflexivity.
  destruct (getSecretStorageKey_derivation_fails (H := trustingClient)
              "key1" recoveryOnlyInfo passphraseInput TypeError trustingState
              Hmiss Hshown Hkey)
    as (Hout & _ & Hkeys & _).
  split; [exact Hout | exact Hkeys].
Defined.

Lemma getSecretStorageKey_failure_keeps_cache_witness :
  secretStorageKeys
    (final
       (getSecretStorageKey (H := scripted) exampleRequest
          (openState closingScript)))
  = secretStorageKeys (openState closingScript).
Proof.
  apply (getSecretStorageKey_failure_keeps_cache (H := scripted)).
  intros v. vm_compute. discriminate.
Defined.

Lemma accessSecretStorage_operation_outcome_witness :
  outcome
    (accessSecretStorage (H := scripted) exampleOperation
       (initialState exampleScript))
  = outcome
      (run (H := scripted) crossSigningCallbacks exampleOperation
         (final
            (ensureBootstrapped (H := scripted)
               (setCachingAllowed true (initialState exampleScript))))).
Proof.
  assert (outcome
            (ensureBootstrapped (H := scripted)
               (setCachingAllowed true (initialState exampleScript)))
          = Returned tt) as Hb by (vm_compute; reflexivity).
  exact (proj1 (accessSecretStorage_operation_outcome (H := scripted)
                  exampleOperation (initialState exampleScript) Hb)).
Defined.

Lemma accessSecretStorage_bootstrap_fails_witness :
  outcome
    (accessSecretStorage (H := scripted) exampleOperation
       (initialState noStorageScript))
  = Thrown SecretStorageCreationCanceled.
Proof.
  assert (outcome
            (ensureBootstrapped (H := scripted)
               (setCachingAllowed true (initialState noStorageScript)))
          = Thrown SecretStorageCreationCanceled)
    as Hb by (vm_compute; reflexivity).
  exact (proj1 (accessSecretStorage_bootstrap_fails (H := scripted)
                  exampleOperation SecretStorageCreationCanceled
                  (initialState noStorageScript) Hb)).
Defined.

Lemma accessSecretStorage_access_path_witness :
  existsb isCreateDialog
    (calls
       (accessSecretStorage (H := scripted) exampleOperation
          (initialState exampleScript))) = false.
Proof.
  assert (hasSecretStorageKey (Collaborators := scripted)
            (world (initialState exampleScript)) = Returned true)
    as Hhas by reflexivity.
  exact (proj1 (accessSecretStorage_access_path (H := scripted)
                  exampleOperation (initialState exampleScript) Hhas)).
Defined.

Lemma quietClient_neverUploads :
  neverUploads (H := quietClient)
    (bootstrapSecretStorage (Collaborators := quietClient)).
Proof. simpl. split; [exact I|]. intros [v|e|]; exact I. Qed.

Lemma accessSecretStorage_no_upload_no_auth_witness :
  existsb isAuthDialog
    (calls
       (accessSecretStorage (H := quietClient) exampleOperation
          quietState)) = false.
Proof.
  exact (accessSecretStorage_no_upload_no_auth (H := quietClient)
           exampleOperation quietState
           quietClient_neverUploads).
Defined.

Lemma accessSecretStorage_check_throws_witness :
  outcome
    (accessSecretStorage (H := loggedOutClient) exampleOperation
       loggedOutState) = Thrown TypeError
  ∧ calls
      (accessSecretStorage (H := loggedOutClient) exampleOperation
         loggedOutState) = [].
Proof.
  assert (hasSecretStorageKey (Collaborators := loggedOutClient)
            (world loggedOutState) = Thrown TypeError) as Hhas by reflexivity.
  destruct (accessSecretStorage_check_throws (H := loggedOutClient)
              exampleOperation TypeError loggedOutState Hhas)
    as (Hout & Hcalls & _).
  split; [exact Hout | exact Hcalls].
Defined.

Lemma accessSecretStorage_pending_gate_open_witness :
  cachingAllowed
    (final
       (accessSecretStorage (H := scripted)
          (Settle Pending : Ext Script ClientE unit)
          (initialState exampleScript))) = true.
Proof.
  apply (accessSecretStorage_pending_gate_open (H := scripted)).
  vm_compute. reflexivity.
Defined.

Lemma closed_gate_empty_cache_witness :
  secretStorageKeys
    (fold_left (useModule (H := scripted))
       [@UseAccessSecretStorage scripted _ exampleOperation;
        @UseGetSecretStorageKey scripted exampleRequest]
       (moduleLoaded (H := scripted) exampleScript)) = ∅.
Proof.
  apply (closed_gate_empty_cache (H := scripted)).
  vm_compute. reflexivity.
Defined.

Lemma accessSecretStorage_operation_not_prompted_witness :
  existsb (isAccessDialogFor "key1")
    (calls
       (run (H := quietClient) crossSigningCallbacks exampleOperation
          (final
             (ensureBootstrapped (H := quietClient)
                (setCachingAllowed true
                   quietState)))))
  = false.
Proof.
  assert (outcome
            (ensureBootstrapped (H := quietClient)
               (setCachingAllowed true
                  quietState))
          = Returned tt) as Hb by (vm_compute; reflexivity).
  assert (secretStorageKeys
            (final
               (ensureBootstrapped (H := quietClient)
                  (setCachingAllowed true
                     quietState)))
            !! "key1" = Some exampleKey)
    as Hentry by (vm_compute; reflexivity).
  exact (proj1 (accessSecretStorage_operation_not_prompted (H := quietClient)
                  exampleOperation "key1" exampleKey
                  quietState
                  Hb Hentry)).
Defined.

Lemma getSecretStorageKey_prompts_after_scope_witness :
  calls
    (getSecretStorageKey (H := scripted) exampleRequest
       (final
          (accessSecretStorage (H := scripted) exampleOperation
             (initialState exampleScript))))
  = [AccessSecretStorageDialog "key1"
       (outcome
          (accessDialogFinished (H := scripted) exampleInfo
             (final
                (accessSecretStorage (H := scripted) exampleOperation
                   (initialState exampleScript)))))].
Proof.
  apply (getSecretStorageKey_prompts_after_scope (H := scripted)).
  vm_compute. reflexivity.
Defined.

Lemma getSecretStorageKey_inherited_name_witness :
  getSecretStorageKey (H := scripted)
    {| keys := [("toString", exampleInfo)] |} (openState exampleScript)
  = {| outcome := Returned ("toString", Inherited "toString");
       final := openState exampleScript;
       calls := [] |}.
Proof.
  apply (getSecretStorageKey_inherited_name (H := scripted));
    vm_compute; reflexivity.
Defined.
